(** * ngrx-json-api: the service facade and the HTTP adapter

    A shallow embedding of [src/services.ts] (class [NgrxJsonApiService])
    and [src/api.ts] (class [NgrxJsonApi]).

    - JavaScript objects that are used as dictionaries are finite maps;
    - the caller-owned [Query] objects live in a heap, because [findOne] and
      [findMany] write to them and the dispatched actions keep a reference to
      the very same object;
    - [store.dispatch] appends to the list of dispatched actions;
    - the observables returned by [findOne] and [findMany] are described by
      the callbacks the code installs ([map], [finally]) and run against a
      trace of source emissions. *)

From stdpp Require Import base option list strings gmap pretty.
From Stdlib Require Import ZArith.

Local Open Scope string_scope.
Local Open Scope nat_scope.
Local Open Scope list_scope.

(* stdpp's solvers clear hypotheses by name *)
Set Warnings "-clear-no-such-hyp".

(** ** JavaScript odds and ends *)

Module Js.

(** An optional property holding a string: [None] is [undefined]. *)
Definition truthy (s : option string) : bool :=
  match s with
  | None => false
  | Some s => negb (String.eqb s "")
  end.

(** [`${x}`] for an optional string. *)
Definition template (s : option string) : string :=
  match s with
  | None => "undefined"
  | Some s => s
  end.

(** The values that meet in a guard [typeof x === undefined]. *)
Inductive prim :=
| Undefined
| Str (s : string).

(** [typeof x] for a parameter that is either [undefined] or an object. *)
Definition typeof {A} (x : option A) : string :=
  match x with
  | None => "undefined"
  | Some _ => "object"
  end.

(** [a === b] on the values above: no conversion takes place. *)
Definition strict_equal (a b : prim) : bool :=
  match a, b with
  | Undefined, Undefined => true
  | Str s, Str t => String.eqb s t
  | _, _ => false
  end.

(** What a thrown [new Error(msg)] carries. *)
Inductive error := Error (message : string).

(** An optional property of an object: the object has no such property of
    its own, or has one that holds [undefined] (or [null]), or has one that
    holds a value. [hasOwnProperty] tells the first from the other two. *)
Inductive member (A : Type) :=
| Missing
| HoldsNothing
| Holds (a : A).
Arguments Missing {A}.
Arguments HoldsNothing {A}.
Arguments Holds {A} a.


Definition held {A} (m : member A) : option A :=
  match m with
  | Holds a => Some a
  | _ => None
  end.

(** What reading a property and testing it comes to. *)
Inductive probe := Falsy | Truthy | Throws.

(** What the objects of the store inherit from their prototype. The
    inherited members are functions and objects of the language: they are
    truthy and have no property named [resource] or [persistedResource].
    An object made without prototype inherits nothing. *)
Class Builtins := {
  (** the object has an inherited member of this name *)
  inherits : string → bool;
  (** reading [id] from the inherited member [name], as a condition *)
  probeInherited : string → string → probe;
}.

(** [object[key]] on an object that is used as a dictionary: its own
    entries first, the inherited members next. *)
Inductive got (A : Type) :=
| Own (a : A)
| Inherited
| NotFound.
Arguments Own {A} a.
Arguments Inherited {A}.
Arguments NotFound {A}.

Definition get `{!Builtins} {A} (object : gmap string A) (key : string) : got A :=
  match object !! key with
  | Some a => Own a
  | None => if inherits key then Inherited else NotFound
  end.

End Js.

(** ** interfaces.ts

    Modelled from the spec: [interfaces.ts] is not among the sources; the
    records below have the fields that [services.ts], [api.ts] and the
    service test read or write, with the types section 3 and section 6 of
    the specification give them. *)

Module ResourceIdentifier.
Record t := mk { type : string; id : string }.

Definition to_pair (i : t) : string * string := (type i, id i).
Definition of_pair (p : string * string) : t := mk p.1 p.2.

#[global] Instance eq_dec : EqDecision t.
Proof. solve_decision. Defined.

#[global] Instance countable : Countable t.
Proof. apply (inj_countable' to_pair of_pair). by intros []. Defined.
End ResourceIdentifier.

(** A scalar attribute value. *)
Inductive AttributeValue :=
| AttrNull
| AttrBool (b : bool)
| AttrNumber (z : Z)
| AttrString (s : string).

(** A relationship points at one resource or at an ordered sequence. *)
Inductive RelationshipData :=
| ToOne (i : ResourceIdentifier.t)
| ToMany (l : list ResourceIdentifier.t).

Module ResourceRelationship.
Record t := mk { data : RelationshipData; unresolved : bool }.
End ResourceRelationship.

Module Resource.
Record t := mk {
  type : string;
  id : string;
  attributes : gmap string AttributeValue;
  relationships : gmap string ResourceRelationship.t;
}.

Definition identifier (r : t) : ResourceIdentifier.t :=
  ResourceIdentifier.mk (type r) (id r).
End Resource.

Inductive ResourceState := UNCHANGED | NEW | UPDATED | DELETED.
Inductive LoadingStatus := IDLE | IN_FLIGHT | ERROR.

Module StoreResource.
Record t := mk {
  resource : Resource.t;
  persistedResource : option Resource.t;  (* [None]: never persisted *)
  state : ResourceState;
  loadingStatus : LoadingStatus;
}.
End StoreResource.

Module SortingParam.
Record t := mk { field : string; descending : bool }.
End SortingParam.

(** [limit] and [offset] are numbers; the integers among them are modelled. *)
Module QueryParams.
Record t := mk {
  include : option (list string);
  filtering : option (list (string * string));
  sorting : option (list SortingParam.t);
  fields : option (list string);
  limit : option Z;
  offset : option Z;
}.
End QueryParams.

Module Query.
Record t := mk {
  queryId : option string;
  type : option string;
  id : option string;
  queryType : option string;
  params : option QueryParams.t;
}.

(** [query.queryType = v] *)
Definition set_queryType (v : string) (q : t) : t :=
  mk (queryId q) (type q) (id q) (Some v) (params q).
End Query.

Inductive DocumentData :=
| One (r : Resource.t)
| Many (l : list Resource.t).

Module Document.
Record t := mk { data : DocumentData; included : list Resource.t }.
End Document.

(** References to query objects. *)
Definition loc := positive.

(** The [query] slot of a payload or action holds either the caller's object
    (by reference) or an object literal built on the spot. *)
Inductive QueryHandle :=
| QueryRef (l : loc)
| QueryLit (q : Query.t).

Module Payload.
Record t := mk { jsonApiData : option Document.t; query : QueryHandle }.
End Payload.

(** The store's data: [data[type][id]]. *)
Abbreviation NgrxJsonApiStoreData := (gmap string (gmap string StoreResource.t)).

(** Modelled from the spec: the record the normalized store holds under an
    identity (section 3: a flat mapping from identity to record). *)
Definition storedRecord (data : NgrxJsonApiStoreData)
  (identifier : ResourceIdentifier.t) : option StoreResource.t :=
  byId ← data !! ResourceIdentifier.type identifier;
  byId !! ResourceIdentifier.id identifier.

(** The key under which a query is registered. *)
Abbreviation QueryKey := (option string).

Module NgrxJsonApiStore.
Record t := mk {
  data : NgrxJsonApiStoreData;
  (** the registered queries, reduced to their number of observers *)
  queries : gmap QueryKey nat;
}.
End NgrxJsonApiStore.

(** ** actions.ts: the actions [services.ts] constructs *)

Inductive Action :=
| ApiApplyInitAction
| ApiCreateInitAction (payload : Payload.t)
| ApiReadInitAction (payload : Payload.t)
| ApiUpdateInitAction (payload : Payload.t)
| ApiDeleteInitAction (payload : Payload.t)
| DeleteStoreResourceAction (resourceId : ResourceIdentifier.t)
| PatchStoreResourceAction (resource : Resource.t)
| PostStoreResourceAction (resource : Resource.t)
| RemoveQueryAction (queryId : QueryKey)
| QueryStoreInitAction (query : QueryHandle).

(** The actions that start a remote operation. *)
Definition is_remote (a : Action) : bool :=
  match a with
  | ApiApplyInitAction | ApiCreateInitAction _ | ApiReadInitAction _
  | ApiUpdateInitAction _ | ApiDeleteInitAction _ => true
  | _ => false
  end.

(** ** The world a service method runs in *)

Record World := mkWorld {
  heap : gmap loc Query.t;               (* the query objects of the callers *)
  dispatched : list Action;              (* [store.dispatch], oldest first *)
  storeSnapshot : NgrxJsonApiStore.t;    (* the service's private field *)
}.

(** The actions that were dispatched between two worlds. *)
Definition dispatchedSince (before after : World) : list Action :=
  drop (length (dispatched before)) (dispatched after).

(** State passing with failure; the only failure is a dangling reference.
    The reducer and the effects that turn dispatched actions into the next
    state of the store are not among the sources: [dispatch] records the
    action, and [storeSnapshot] is what the store emitted last. *)
Definition M (A : Type) : Type := World → option (A * World).

#[global] Instance M_ret : MRet M := λ A a w, Some (a, w).
#[global] Instance M_bind : MBind M := λ A B f m w,
  match m w with
  | Some (a, w') => f a w'
  | None => None
  end.

Definition dispatch (a : Action) : M unit := λ w,
  Some (tt, mkWorld (heap w) (dispatched w ++ [a]) (storeSnapshot w)).

Definition readQuery (l : loc) : M Query.t := λ w,
  match heap w !! l with
  | Some q => Some (q, w)
  | None => None
  end.

Definition writeQuery (l : loc) (q : Query.t) : M unit := λ w,
  Some (tt, mkWorld (<[l := q]> (heap w)) (dispatched w) (storeSnapshot w)).

Definition getSnapshot : M NgrxJsonApiStore.t := λ w, Some (storeSnapshot w, w).

(** ** Observables

    A subscription to [source.map(f).finally(cb)] sees the emissions of the
    source until it ends; [cb] runs once, when the subscription is torn
    down, whatever ended it. *)

Module Rx.

Inductive Notification (A : Type) :=
| Next (a : A)
| Failed (e : Js.error)
| Completed.
Arguments Next {A} a.
Arguments Failed {A} e.
Arguments Completed {A}.

(** How the subscription ends when no callback throws. *)
Inductive Ending :=
| Unsubscribed
| SourceCompleted
| SourceFailed (e : Js.error).

Definition finish {A} (e : Ending) : list (Notification A) :=
  match e with
  | Unsubscribed => []
  | SourceCompleted => [Completed]
  | SourceFailed err => [Failed err]
  end.

(** [source.map(f)]: a throwing [f] turns into an error notification and
    ends the subscription. *)
Fixpoint map {S A} (f : S → Js.error + A) (xs : list S) (e : Ending)
  : list (Notification A) :=
  match xs with
  | [] => finish e
  | x :: xs' =>
      match f x with
      | inl err => [Failed err]
      | inr a => Next a :: map f xs' e
      end
  end.

(** The observable [selectResults(queryId).map(project).finally(finalizer)]. *)
Record Observable (A : Type) := mkObservable {
  selected : QueryKey;
  project : list StoreResource.t → Js.error + A;
  finalizer : M unit;
}.
Arguments mkObservable {A}.
Arguments selected {A}.
Arguments project {A}.
Arguments finalizer {A}.


End Rx.

(** ** utils.ts: [denormaliseResource]

    Modelled from the spec: [utils.ts] is not among the sources. Section 4.4
    of the specification: each relationship reference is replaced by the
    current resource of the record it points at, and that resource's
    relationships are expanded in turn; the identifiers on the way from the
    root are kept, and a reference to one of them becomes a placeholder that
    holds the identifier and nothing else; a reference to a record the store
    does not have becomes an unresolved-reference marker. *)

Module Denormaliser.

(** What stands where a relationship stood: one thing or a sequence. *)
Inductive Related (A : Type) :=
| RelatedOne (a : A)
| RelatedMany (l : list A).
Arguments RelatedOne {A} a.
Arguments RelatedMany {A} l.

Definition members {A} (r : Related A) : list A :=
  match r with
  | RelatedOne a => [a]
  | RelatedMany l => l
  end.

Definition relatedMap {A B} (f : A → B) (r : Related A) : Related B :=
  match r with
  | RelatedOne a => RelatedOne (f a)
  | RelatedMany l => RelatedMany (f <$> l)
  end.

Definition relate {A B} (f : A → option B) (r : Related A) : option (Related B) :=
  match r with
  | RelatedOne a => RelatedOne <$> f a
  | RelatedMany l => RelatedMany <$> mapM f l
  end.

Definition targets (d : RelationshipData) : Related ResourceIdentifier.t :=
  match d with
  | ToOne i => RelatedOne i
  | ToMany l => RelatedMany l
  end.

#[warnings="-register-all"] Inductive Denormalised :=
| Expanded (reference : ResourceIdentifier.t) (resource : Resource.t)
    (related : list (string * Related Denormalised))
| Placeholder (reference : ResourceIdentifier.t)
| UnresolvedReference (reference : ResourceIdentifier.t).

Definition reference (t : Denormalised) : ResourceIdentifier.t :=
  match t with
  | Expanded i _ _ | Placeholder i | UnresolvedReference i => i
  end.

(** One reference, met while the identifiers of [path] are being expanded;
    [recur] expands a record that was found. *)
Definition resolve (data : NgrxJsonApiStoreData) (path : list ResourceIdentifier.t)
  (recur : ResourceIdentifier.t → Resource.t → option Denormalised)
  (i : ResourceIdentifier.t) : option Denormalised :=
  if decide (i ∈ path) then Some (Placeholder i)
  else
    match storedRecord data i with
    | Some record => recur i (StoreResource.resource record)
    | None => Some (UnresolvedReference i)
    end.

(** The relationships of a resource, by name. *)
Definition references (resource : Resource.t)
  : list (string * Related ResourceIdentifier.t) :=
  (λ r, (r.1, targets (ResourceRelationship.data r.2)))
    <$> map_to_list (Resource.relationships resource).

Definition expandAll (f : ResourceIdentifier.t → option Denormalised)
  (l : list (string * Related ResourceIdentifier.t))
  : option (list (string * Related Denormalised)) :=
  mapM (λ r, (λ x, (r.1, x)) <$> relate f r.2) l.

Fixpoint expand (fuel : nat) (data : NgrxJsonApiStoreData)
  (path : list ResourceIdentifier.t) (i : ResourceIdentifier.t)
  (resource : Resource.t) : option Denormalised :=
  match fuel with
  | 0 => None
  | S fuel =>
      related ← expandAll (resolve data (i :: path) (expand fuel data (i :: path)))
                  (references resource);
      Some (Expanded i resource related)
  end.

(** The identifiers of the records of the store. *)
Definition identifiers (data : NgrxJsonApiStoreData) : gset (string * string) :=
  dom (map_uncurry (M12 := gmap (string * string)) data).

(** The records of the store that are not yet on the path. *)
Definition remaining (data : NgrxJsonApiStoreData)
  (path : list ResourceIdentifier.t) : gset (string * string) :=
  identifiers data ∖ list_to_set (ResourceIdentifier.to_pair <$> path).

(** Every step down adds a record of the store to the path, so one more
    step than the store has records is enough. *)
Definition denormaliseResource (item : StoreResource.t)
  (storeData : NgrxJsonApiStoreData) : option Denormalised :=
  let resource := StoreResource.resource item in
  expand (S (size (identifiers storeData))) storeData []
    (Resource.identifier resource) resource.

(** [t] stands for a reference met under [path]: a placeholder exactly when
    the reference is on the path, a marker when the store has no such record,
    and otherwise the record's resource with every reference of its
    relationships replaced, in order, under the longer path. *)
#[warnings="-register-all"] Inductive denotes (data : NgrxJsonApiStoreData)
  : list ResourceIdentifier.t → Denormalised → Prop :=
| denotes_placeholder path i :
    i ∈ path → denotes data path (Placeholder i)
| denotes_unresolved path i :
    i ∉ path → storedRecord data i = None →
    denotes data path (UnresolvedReference i)
| denotes_expanded path i record related :
    i ∉ path → storedRecord data i = Some record →
    (λ r, (r.1, relatedMap reference r.2)) <$> related
      = references (StoreResource.resource record) →
    Forall (λ r, Forall (denotes data (i :: path)) (members r.2)) related →
    denotes data path (Expanded i (StoreResource.resource record) related).

(** The same for the record the expansion starts from, which is given and
    not looked up. *)
Definition denotesRoot (data : NgrxJsonApiStoreData) (item : StoreResource.t)
  (t : Denormalised) : Prop :=
  let resource := StoreResource.resource item in
  ∃ related,
    t = Expanded (Resource.identifier resource) resource related ∧
    (λ r, (r.1, relatedMap reference r.2)) <$> related = references resource ∧
    Forall (λ r, Forall (denotes data [Resource.identifier resource]) (members r.2))
      related.

End Denormaliser.

(** ** services.ts *)

(** What [data[type][id]] turns out to be: a record of the store, a member
    the objects inherit (truthy, and without [resource]), nothing (a falsy
    value), or a [TypeError] raised while reading. *)
Module Found.
Inductive t :=
| Record (record : StoreResource.t)
| Member
| Nothing
| Raised.
End Found.

(** What a snapshot getter returns: [null], [undefined], a resource; or it
    raises a [TypeError]. *)
Module Snapshot.
Inductive t :=
| Null
| Undefined
| Resource (r : Resource.t)
| TypeError.
End Snapshot.

Module NgrxJsonApiService.

(** What [findOne] emits: [null], a resource, or a store resource. *)
Inductive OneResult :=
| Null
| AResource (r : Resource.t)
| AStoreResource (s : StoreResource.t).

(** What [findMany] emits. *)
Inductive ManyResult :=
| Resources (l : list Resource.t)
| StoreResources (l : list StoreResource.t).

Definition removeQuery (queryId : QueryKey) : M unit :=
  dispatch (RemoveQueryAction queryId).

Definition findInternal (query : loc) (fromServer : bool) : M unit :=
  if fromServer then
    let payload := Payload.mk None (QueryRef query) in
    dispatch (ApiReadInitAction payload)
  else
    dispatch (QueryStoreInitAction (QueryRef query)).

(** The callback [findOne] hands to [map]. *)
Definition findOne_project (resource : bool) (it : list StoreResource.t)
  : Js.error + OneResult :=
  match it with
  | [] => inr Null
  | [x] => inr (if resource then AResource (StoreResource.resource x)
                else AStoreResource x)
  | _ => inl (Js.Error "Unique result expected")
  end.

(** The callback [findOne] and [findMany] hand to [finally]: it reads
    [query.queryId] when it runs. *)
Definition find_finalizer (query : loc) : M unit :=
  q ← readQuery query;
  removeQuery (Query.queryId q).

Definition findOne (query : loc) (fromServer resource : bool)
  : M (Rx.Observable OneResult) :=
  q ← readQuery query;
  _ ← writeQuery query (Query.set_queryType "getOne" q);
  _ ← findInternal query fromServer;
  q ← readQuery query;
  mret (Rx.mkObservable (Query.queryId q)
          (findOne_project resource)
          (find_finalizer query)).

(** The callback [findMany] hands to [map]. *)
Definition findMany_project (resource : bool) (it : list StoreResource.t)
  : Js.error + ManyResult :=
  inr (if resource then Resources (StoreResource.resource <$> it)
       else StoreResources it).

Definition findMany (query : loc) (fromServer resource : bool)
  : M (Rx.Observable ManyResult) :=
  q ← readQuery query;
  _ ← writeQuery query (Query.set_queryType "getMany" q);
  _ ← findInternal query fromServer;
  q ← readQuery query;
  mret (Rx.mkObservable (Query.queryId q)
          (findMany_project resource)
          (find_finalizer query)).

(** [snapshot.data[identifier.type] && snapshot.data[identifier.type][identifier.id]]:
    what the condition finds. *)
Definition probeRecord `{!Js.Builtins} (data : NgrxJsonApiStoreData)
  (identifier : ResourceIdentifier.t) : Found.t :=
  match Js.get data (ResourceIdentifier.type identifier) with
  | Js.Own byId =>
      match Js.get byId (ResourceIdentifier.id identifier) with
      | Js.Own record => Found.Record record
      | Js.Inherited => Found.Member
      | Js.NotFound => Found.Nothing
      end
  | Js.Inherited =>
      match Js.probeInherited (ResourceIdentifier.type identifier)
              (ResourceIdentifier.id identifier) with
      | Js.Truthy => Found.Member
      | Js.Falsy => Found.Nothing
      | Js.Throws => Found.Raised
      end
  | Js.NotFound => Found.Nothing
  end.

Definition getResourceSnapshot `{!Js.Builtins} (identifier : ResourceIdentifier.t)
  : M Snapshot.t :=
  snapshot ← getSnapshot;
  match probeRecord (NgrxJsonApiStore.data snapshot) identifier with
  | Found.Record record => mret (Snapshot.Resource (StoreResource.resource record))
  | Found.Member => mret Snapshot.Undefined
  | Found.Nothing => mret Snapshot.Null
  | Found.Raised => mret Snapshot.TypeError
  end.

Definition getPersistedResourceSnapshot `{!Js.Builtins}
  (identifier : ResourceIdentifier.t) : M Snapshot.t :=
  snapshot ← getSnapshot;
  match probeRecord (NgrxJsonApiStore.data snapshot) identifier with
  | Found.Record record =>
      mret (match StoreResource.persistedResource record with
            | Some resource => Snapshot.Resource resource
            | None => Snapshot.Null
            end)
  | Found.Member => mret Snapshot.Undefined
  | Found.Nothing => mret Snapshot.Null
  | Found.Raised => mret Snapshot.TypeError
  end.

(** The [data] member that [patchResource] and [postResource] build. *)
Definition copyOf (resource : Resource.t) : Resource.t :=
  Resource.mk (Resource.type resource) (Resource.id resource)
    (Resource.attributes resource) (Resource.relationships resource).

Definition patchResource (resource : Resource.t) (toRemote : bool) : M unit :=
  if toRemote then
    let payload :=
      Payload.mk
        (Some (Document.mk (One (copyOf resource)) []))
        (QueryLit (Query.mk None (Some (Resource.type resource))
                     (Some (Resource.id resource)) (Some "update") None)) in
    dispatch (ApiUpdateInitAction payload)
  else
    dispatch (PatchStoreResourceAction resource).

Definition postResource (resource : Resource.t) (toRemote : bool) : M unit :=
  if toRemote then
    let payload :=
      Payload.mk
        (Some (Document.mk (One (copyOf resource)) []))
        (QueryLit (Query.mk None (Some (Resource.type resource))
                     None (Some "create") None)) in
    dispatch (ApiCreateInitAction payload)
  else
    dispatch (PostStoreResourceAction resource).

Definition deleteResource (resourceId : ResourceIdentifier.t) (toRemote : bool)
  : M unit :=
  if toRemote then
    let payload :=
      Payload.mk None
        (QueryLit (Query.mk None (Some (ResourceIdentifier.type resourceId))
                     (Some (ResourceIdentifier.id resourceId))
                     (Some "deleteOne") None)) in
    dispatch (ApiDeleteInitAction payload)
  else
    dispatch (DeleteStoreResourceAction resourceId).

Definition apply : M unit := dispatch ApiApplyInitAction.

(** The function [denormalise] hands to [combineLatest]: it is applied to
    the latest store resource and the latest store data. *)
Definition denormalise (StoreResource : StoreResource.t)
  (storeData : NgrxJsonApiStoreData) : option Denormaliser.Denormalised :=
  Denormaliser.denormaliseResource StoreResource storeData.

End NgrxJsonApiService.

(** ** The query registry

    Modelled from the spec: the reducer ([reducers.ts]) is not among the
    sources. Section 4.2 of the specification gives the registry two
    operations: [register] creates the registration of a query that is not yet
    registered and returns an existing registration unchanged, [unregister]
    decrements the reference count, deletes the registration when the count
    reaches zero and does nothing when the query is absent. A registration is
    reduced here to its reference count, which starts at one, for the
    observer that asked for the query. *)

Module QueryRegistry.

Definition register (queryId : QueryKey) (reg : gmap QueryKey nat)
  : gmap QueryKey nat :=
  match reg !! queryId with
  | Some _ => reg
  | None => <[queryId := 1]> reg
  end.

Definition unregister (queryId : QueryKey) (reg : gmap QueryKey nat)
  : gmap QueryKey nat :=
  match reg !! queryId with
  | Some n => if decide (n ≤ 1) then delete queryId reg
              else <[queryId := n - 1]> reg
  | None => reg
  end.




End QueryRegistry.


(** ** api.ts *)

Module ResourceDefinition.
Record t := mk { type : string; collectionPath : string }.
End ResourceDefinition.

(** The generators a configuration may override; an absent member is [None]. *)
Module NgrxJsonApiUrlBuilder.
Record t := mk {
  generateIncludedQueryParams : option (list string → string);
  generateFilteringQueryParams : option (list (string * string) → string);
  generateFieldsQueryParams : option (list string → string);
  generateSortingQueryParams : option (list SortingParam.t → string);
  generateQueryParams : option (list string → string);
}.
End NgrxJsonApiUrlBuilder.

Module NgrxJsonApiConfig.
Record t := mk {
  apiUrl : string;
  resourceDefinitions : list ResourceDefinition.t;
  urlBuilder : Js.member NgrxJsonApiUrlBuilder.t;
}.
End NgrxJsonApiConfig.

(** What [api.ts] imports and does not define: the default generators of
    [utils.ts], the built-ins [encodeURIComponent] and [JSON.stringify], and
    the string JavaScript makes of a number when it is appended to a string
    (here on the numbers that are integers). *)
Class Imports := {
  generateIncludedQueryParams : list string → string;
  generateFilteringQueryParams : list (string * string) → string;
  generateFieldsQueryParams : list string → string;
  generateSortingQueryParams : list SortingParam.t → string;
  generateQueryParams : list string → string;
  encodeURIComponent : string → string;
  (** [JSON.stringify({ data: d })] *)
  stringify : DocumentData → string;
  (** ['' + n] *)
  numberToString : Z → string;
}.

Inductive OperationType := GET | DELETE | PATCH | POST.

Module RequestMethod.
Inductive t := Get | Post | Patch | Delete.
End RequestMethod.

Module Request.
Record t := mk {
  method : RequestMethod.t;
  url : string;
  body : option string;
  headers : list (string * string);
}.
End Request.

(** What a call of [find], [create], [update] or [delete] comes to. *)
Inductive Outcome :=
| Requested (r : Request.t)          (* [this.http.request(r)] *)
| Thrown (message : string)          (* [Observable.throw(message)] *)
| TypeError.                         (* a property of [undefined] was read *)

Module NgrxJsonApi.
Section WithConfig.

Context `{!Imports} (config : NgrxJsonApiConfig.t).

Definition headers : list (string * string) :=
  [("Content-Type", "application/vnd.api+json");
   ("Accept", "application/vnd.api+json")].

Definition definitions : list ResourceDefinition.t :=
  NgrxJsonApiConfig.resourceDefinitions config.

(** The result is a string, or [undefined] when the type is [undefined]
    and no definition is found: [None]. *)
Definition collectionPathFor (type : option string) : option string :=
  let definition :=
    List.find (λ d, bool_decide (Some (ResourceDefinition.type d) = type))
      definitions in
  match definition with
  | Some definition => Some (ResourceDefinition.collectionPath definition)
  | None => type
  end.

Definition collectionUrlFor (type : option string) : string :=
  let collectionPath := collectionPathFor type in
  NgrxJsonApiConfig.apiUrl config +:+ "/" +:+ Js.template collectionPath.

Definition resourcePathFor (type id : string) : string :=
  let collectionPath := collectionPathFor (Some type) in
  Js.template collectionPath +:+ "/" +:+ encodeURIComponent id.

Definition resourceUrlFor (type id : string) : string :=
  let resourcePath := resourcePathFor type id in
  NgrxJsonApiConfig.apiUrl config +:+ "/" +:+ resourcePath.

(** [query.type && query.id], with the two strings when it holds. *)
Definition typeAndId (query : Query.t) : option (string * string) :=
  if Js.truthy (Query.type query) && Js.truthy (Query.id query) then
    match Query.type query, Query.id query with
    | Some type, Some id => Some (type, id)
    | _, _ => None
    end
  else None.

(** The cases of the [switch] of [urlBuilder], last one first: a case whose
    [if] does not return runs into the case below it. *)
Definition case_POST (query : Query.t) : string :=
  collectionUrlFor (Query.type query).

Definition case_PATCH (query : Query.t) : string :=
  match typeAndId query with
  | Some (type, id) => resourceUrlFor type id
  | None => case_POST query
  end.

Definition case_DELETE (query : Query.t) : string :=
  match typeAndId query with
  | Some (type, id) => resourceUrlFor type id
  | None => case_PATCH query
  end.

Definition case_GET (query : Query.t) : string :=
  match typeAndId query with
  | Some (type, id) => resourceUrlFor type id
  | None =>
      if Js.truthy (Query.type query) then collectionUrlFor (Query.type query)
      else case_DELETE query
  end.

Definition urlBuilder (query : Query.t) (operation : OperationType) : string :=
  match operation with
  | GET => case_GET query
  | DELETE => case_DELETE query
  | PATCH => case_PATCH query
  | POST => case_POST query
  end.

Definition request (method : RequestMethod.t) (url : string) (body : option string)
  : Outcome :=
  Requested (Request.mk method url body headers).

(** [typeof x === undefined] *)
Definition guard {A} (x : option A) : bool :=
  Js.strict_equal (Js.Str (Js.typeof x)) Js.Undefined.

(** The generator [find] uses for a concern, given the [urlBuilder] it
    read from the configuration, if the configuration has one: the member of
    that [urlBuilder] when it has the member, the imported one otherwise. *)
Definition chosen {A} (urlBuilder : option NgrxJsonApiUrlBuilder.t)
  (member : NgrxJsonApiUrlBuilder.t → option A) (imported : A) : A :=
  match urlBuilder with
  | Some urlBuilder =>
      match member urlBuilder with
      | Some configured => configured
      | None => imported
      end
  | None => imported
  end.

(** [if (_.hasIn(query.params, key)) { param = generate(query.params[key]) }]
    on a parameter that starts as the empty string. *)
Definition whenPresent {A} (value : option A) (generate : A → string) : string :=
  match value with
  | Some v => generate v
  | None => ""
  end.

(** [_.isEmpty(query.params)] *)
Definition isEmpty (params : QueryParams.t) : bool :=
  match params with
  | QueryParams.mk None None None None None None => true
  | _ => false
  end.

(** The query [find] reads its parameters from: [query.params] when the
    query has its own non-empty [params]. *)
Definition usableParams (query : Query.t) : option QueryParams.t :=
  match Query.params query with
  | Some params => if negb (isEmpty params) then Some params else None
  | None => None
  end.

Definition find (query : option Query.t) : Outcome :=
  match NgrxJsonApiConfig.urlBuilder config with
  | Js.HoldsNothing =>
      (* [hasOwnProperty('urlBuilder')] holds and
         [urlBuilder.generateIncludedQueryParams] reads from [undefined] *)
      TypeError
  | own =>
      let configured := Js.held own in
      let _generateIncludedQueryParams :=
        chosen configured NgrxJsonApiUrlBuilder.generateIncludedQueryParams
          generateIncludedQueryParams in
      let _generateFilteringQueryParams :=
        chosen configured NgrxJsonApiUrlBuilder.generateFilteringQueryParams
          generateFilteringQueryParams in
      let _generateFieldsQueryParams :=
        chosen configured NgrxJsonApiUrlBuilder.generateFieldsQueryParams
          generateFieldsQueryParams in
      let _generateSortingQueryParams :=
        chosen configured NgrxJsonApiUrlBuilder.generateSortingQueryParams
          generateSortingQueryParams in
      let _generateQueryParams :=
        chosen configured NgrxJsonApiUrlBuilder.generateQueryParams
          generateQueryParams in
      if guard query then Thrown "Query not found"
      else
        match query with
        | None => TypeError   (* [query.hasOwnProperty] *)
        | Some query =>
            let params := usableParams query in
            let includedParam :=
              whenPresent (params ≫= QueryParams.include)
                _generateIncludedQueryParams in
            let filteringParams :=
              whenPresent (params ≫= QueryParams.filtering)
                _generateFilteringQueryParams in
            let sortingParams :=
              whenPresent (params ≫= QueryParams.sorting)
                _generateSortingQueryParams in
            let fieldsParams :=
              whenPresent (params ≫= QueryParams.fields)
                _generateFieldsQueryParams in
            let limitParams :=
              whenPresent (params ≫= QueryParams.limit)
                (λ limit, "page[limit]=" +:+ numberToString limit) in
            let offsetParams :=
              whenPresent (params ≫= QueryParams.offset)
                (λ offset, "page[offset]=" +:+ numberToString offset) in
            let queryParams :=
              _generateQueryParams
                [includedParam; filteringParams; sortingParams; fieldsParams;
                 offsetParams; limitParams] in
            request RequestMethod.Get (urlBuilder query GET +:+ queryParams) None
        end
  end.

Definition create (query : option Query.t) (document : option Document.t)
  : Outcome :=
  if guard query then Thrown "Query not found"
  else if guard document then Thrown "Data not found"
  else
    match query with
    | None => TypeError   (* [query.type], in [urlBuilder] *)
    | Some query =>
        let url := urlBuilder query POST in
        match document with
        | None => TypeError   (* [document.data] *)
        | Some document =>
            request RequestMethod.Post url (Some (stringify (Document.data document)))
        end
    end.

Definition update (query : option Query.t) (document : option Document.t)
  : Outcome :=
  if guard query then Thrown "Query not found"
  else if guard document then Thrown "Data not found"
  else
    match query with
    | None => TypeError   (* [query.type], in [urlBuilder] *)
    | Some query =>
        let url := urlBuilder query PATCH in
        match document with
        | None => TypeError   (* [document.data] *)
        | Some document =>
            request RequestMethod.Patch url (Some (stringify (Document.data document)))
        end
    end.

Definition delete (query : option Query.t) : Outcome :=
  if guard query then Thrown "Query not found"
  else
    match query with
    | None => TypeError   (* [query.type], in [urlBuilder] *)
    | Some query => request RequestMethod.Delete (urlBuilder query DELETE) None
    end.

End WithConfig.
End NgrxJsonApi.

(** ** Sample data

    The store of the service test: two articles by one author; a second store
    in which the author points back at the first article; one query object
    of a caller; a configuration and sample generators for the examples. The
    theorems below hold for every store, world, configuration and generator. *)

Module Sample.

Definition toOne (type id : string) : ResourceRelationship.t :=
  ResourceRelationship.mk (ToOne (ResourceIdentifier.mk type id)) false.

Definition toMany (l : list (string * string)) : ResourceRelationship.t :=
  ResourceRelationship.mk (ToMany (ResourceIdentifier.of_pair <$> l)) false.

Definition person9 : Resource.t := Resource.mk "Person" "9" ∅ ∅.

Definition article (id : string) : Resource.t :=
  Resource.mk "Article" id {[ "title" := AttrString "Untitled" ]}
    {[ "author" := toOne "Person" "9" ]}.

Definition record (r : Resource.t) : StoreResource.t :=
  StoreResource.mk r (Some r) UNCHANGED IDLE.

Definition newRecord (r : Resource.t) : StoreResource.t :=
  StoreResource.mk r None NEW IDLE.

Definition storeData : NgrxJsonApiStoreData :=
  {[ "Article" := {[ "1" := record (article "1"); "2" := newRecord (article "2") ]};
     "Person" := {[ "9" := record person9 ]} ]}.

(** The author lists the article that names it: a cycle. *)
Definition author9 : Resource.t :=
  Resource.mk "Person" "9" ∅
    {[ "articles" := toMany [("Article", "1"); ("Article", "7")] ]}.

Definition cyclicData : NgrxJsonApiStoreData :=
  {[ "Article" := {[ "1" := record (article "1") ]};
     "Person" := {[ "9" := record author9 ]} ]}.

Definition query22 : Query.t :=
  Query.mk (Some "22") (Some "Article") (Some "1") (Some "custom") None.

Definition world : World :=
  mkWorld {[ 1%positive := query22 ]} [] (NgrxJsonApiStore.mk storeData ∅).

Definition join (l : list string) : string :=
  foldr (λ s acc, if String.eqb acc "" then s else s +:+ "," +:+ acc) "" l.

#[global] Instance imports : Imports := {|
  generateIncludedQueryParams l := "include=" +:+ join l;
  generateFilteringQueryParams l :=
    "filter=" +:+ join ((λ p, p.1 +:+ ":" +:+ p.2) <$> l);
  generateFieldsQueryParams l := "fields=" +:+ join l;
  generateSortingQueryParams l := "sort=" +:+ join (SortingParam.field <$> l);
  generateQueryParams l :=
    "?" +:+ foldr (λ s acc, if String.eqb s "" then acc else s +:+ "&" +:+ acc) "" l;
  encodeURIComponent s := s;
  stringify d := "{}";
  numberToString z := pretty z;
|}.

(** The members every plain object inherits, and what reading a property
    of one of them comes to: [__proto__] is the prototype itself, whose own
    [__proto__] is [null]; the others are functions, which have a name, a
    [length] that is zero for the functions without argument, and the
    members of their own prototype, among which [caller] and [arguments]
    raise a [TypeError] when read. *)
Definition objectPrototype : list string :=
  ["constructor"; "hasOwnProperty"; "isPrototypeOf"; "propertyIsEnumerable";
   "toLocaleString"; "toString"; "valueOf"; "__proto__"].

#[global] Instance builtins : Js.Builtins := {|
  Js.inherits name := bool_decide (name ∈ objectPrototype);
  Js.probeInherited name id :=
    if String.eqb name "__proto__" then
      if bool_decide (id ∈ objectPrototype ∧ id ≠ "__proto__") then Js.Truthy
      else Js.Falsy
    else if bool_decide (id ∈ ["caller"; "arguments"]) then Js.Throws
    else if String.eqb id "name" then Js.Truthy
    else if String.eqb id "length" then
      if bool_decide (name ∈ ["toLocaleString"; "toString"; "valueOf"])
      then Js.Falsy else Js.Truthy
    else if bool_decide (id ∈ ["call"; "apply"; "bind"] ++ objectPrototype)
    then Js.Truthy
    else Js.Falsy;
|}.

Definition config : NgrxJsonApiConfig.t :=
  NgrxJsonApiConfig.mk "http://api"
    [ResourceDefinition.mk "Article" "articles"] Js.Missing.

End Sample.

(** ** Runs of calls and of subscriptions *)

Module Runs.

(** A call of a public method of the service. *)
Inductive Call :=
| FindOne (query : loc) (fromServer resource : bool)
| FindMany (query : loc) (fromServer resource : bool)
| GetResourceSnapshot (identifier : ResourceIdentifier.t)
| GetPersistedResourceSnapshot (identifier : ResourceIdentifier.t)
| PatchResource (resource : Resource.t) (toRemote : bool)
| PostResource (resource : Resource.t) (toRemote : bool)
| DeleteResource (resourceId : ResourceIdentifier.t) (toRemote : bool)
| Apply.

(** The call, its result dropped. *)
Definition perform (c : Call) : M unit :=
  match c with
  | FindOne query fromServer resource =>
      _ ← NgrxJsonApiService.findOne query fromServer resource; mret tt
  | FindMany query fromServer resource =>
      _ ← NgrxJsonApiService.findMany query fromServer resource; mret tt
  | GetResourceSnapshot identifier =>
      _ ← NgrxJsonApiService.getResourceSnapshot identifier; mret tt
  | GetPersistedResourceSnapshot identifier =>
      _ ← NgrxJsonApiService.getPersistedResourceSnapshot identifier; mret tt
  | PatchResource resource toRemote =>
      NgrxJsonApiService.patchResource resource toRemote
  | PostResource resource toRemote =>
      NgrxJsonApiService.postResource resource toRemote
  | DeleteResource resourceId toRemote =>
      NgrxJsonApiService.deleteResource resourceId toRemote
  | Apply => NgrxJsonApiService.apply
  end.

Fixpoint performAll (cs : list Call) : M unit :=
  match cs with
  | [] => mret tt
  | c :: cs => _ ← perform c; performAll cs
  end.

(** The query object a call needs. *)
Definition needs (c : Call) : option loc :=
  match c with
  | FindOne query _ _ | FindMany query _ _ => Some query
  | _ => None
  end.

(** The actions a call dispatches. *)
Definition issued (c : Call) : list Action :=
  match c with
  | FindOne query fromServer _ | FindMany query fromServer _ =>
      if fromServer then [ApiReadInitAction (Payload.mk None (QueryRef query))]
      else [QueryStoreInitAction (QueryRef query)]
  | GetResourceSnapshot _ | GetPersistedResourceSnapshot _ => []
  | PatchResource resource toRemote =>
      if toRemote then
        [ApiUpdateInitAction
           (Payload.mk
              (Some (Document.mk (One (NgrxJsonApiService.copyOf resource)) []))
              (QueryLit (Query.mk None (Some (Resource.type resource))
                           (Some (Resource.id resource)) (Some "update") None)))]
      else [PatchStoreResourceAction resource]
  | PostResource resource toRemote =>
      if toRemote then
        [ApiCreateInitAction
           (Payload.mk
              (Some (Document.mk (One (NgrxJsonApiService.copyOf resource)) []))
              (QueryLit (Query.mk None (Some (Resource.type resource))
                           None (Some "create") None)))]
      else [PostStoreResourceAction resource]
  | DeleteResource resourceId toRemote =>
      if toRemote then
        [ApiDeleteInitAction
           (Payload.mk None
              (QueryLit (Query.mk None (Some (ResourceIdentifier.type resourceId))
                           (Some (ResourceIdentifier.id resourceId))
                           (Some "deleteOne") None)))]
      else [DeleteStoreResourceAction resourceId]
  | Apply => [ApiApplyInitAction]
  end.

(** The query an action holds, if it holds one. *)
Definition carried (a : Action) : option QueryHandle :=
  match a with
  | ApiCreateInitAction p | ApiReadInitAction p | ApiUpdateInitAction p
  | ApiDeleteInitAction p => Some (Payload.query p)
  | QueryStoreInitAction q => Some q
  | _ => None
  end.

(** What a reader of an action finds behind its query. *)
Definition queried (h : gmap loc Query.t) (q : QueryHandle) : option Query.t :=
  match q with
  | QueryRef l => h !! l
  | QueryLit q => Some q
  end.

(** Two states of a query object that differ in [queryType] at most. *)
Definition sameButQueryType (q q' : Query.t) : Prop :=
  Query.queryId q' = Query.queryId q ∧ Query.type q' = Query.type q ∧
  Query.id q' = Query.id q ∧ Query.params q' = Query.params q.


End Runs.

(** * Properties *)

(** ** The query registry *)

Lemma unregister_absent (k : QueryKey) (reg : gmap QueryKey nat) :
  reg !! k = None → QueryRegistry.unregister k reg = reg.
Proof. intros H. unfold QueryRegistry.unregister. by rewrite H. Qed.

Lemma unregister_last (k : QueryKey) (reg : gmap QueryKey nat) :
  reg !! k = Some 1 → QueryRegistry.unregister k reg !! k = None.
Proof.
  intros H. unfold QueryRegistry.unregister. rewrite H.
  case_decide; [apply lookup_delete_eq | lia].
Qed.

Lemma register_fresh (k : QueryKey) (reg : gmap QueryKey nat) :
  reg !! k = None → QueryRegistry.register k reg !! k = Some 1.
Proof. intros H. unfold QueryRegistry.register. rewrite H. apply lookup_insert_eq. Qed.

(** ** The service *)

Section ServiceFacts.
Import NgrxJsonApiService.

Lemma findInternal_run query fromServer w :
  findInternal query fromServer w =
  Some (tt, mkWorld (heap w) (dispatched w ++ [(if fromServer then ApiReadInitAction (Payload.mk None (QueryRef query))
                else QueryStoreInitAction (QueryRef query))])
              (storeSnapshot w)).
Proof. by destruct fromServer. Qed.

Lemma findOne_run w query q0 fromServer resource :
  heap w !! query = Some q0 →
  findOne query fromServer resource w =
  Some (Rx.mkObservable (Query.queryId q0) (findOne_project resource)
          (find_finalizer query),
        mkWorld (<[query := Query.set_queryType "getOne" q0]> (heap w))
          (dispatched w ++
             [(if fromServer then ApiReadInitAction (Payload.mk None (QueryRef query))
                else QueryStoreInitAction (QueryRef query))])
          (storeSnapshot w)).
Proof.
  intros H. unfold findOne, mbind, M_bind, readQuery at 1. rewrite H.
  cbn [writeQuery]. rewrite findInternal_run.
  unfold readQuery. cbn [heap]. by rewrite lookup_insert_eq.
Qed.

Lemma findMany_run w query q0 fromServer resource :
  heap w !! query = Some q0 →
  findMany query fromServer resource w =
  Some (Rx.mkObservable (Query.queryId q0) (findMany_project resource)
          (find_finalizer query),
        mkWorld (<[query := Query.set_queryType "getMany" q0]> (heap w))
          (dispatched w ++
             [(if fromServer then ApiReadInitAction (Payload.mk None (QueryRef query))
                else QueryStoreInitAction (QueryRef query))])
          (storeSnapshot w)).
Proof.
  intros H. unfold findMany, mbind, M_bind, readQuery at 1. rewrite H.
  cbn [writeQuery]. rewrite findInternal_run.
  unfold readQuery. cbn [heap]. by rewrite lookup_insert_eq.
Qed.



Lemma findOne_project_many resource (it : list StoreResource.t) :
  2 ≤ length it →
  findOne_project resource it = inl (Js.Error "Unique result expected").
Proof. destruct it as [|x [|y it]]; simpl; [lia|lia|done]. Qed.

(** C1: the observable [findOne] returns is the selection of the results
    of the query's [queryId]; it emits [null] for an empty result set, the one record (its resource when [resource] is set) for a result
    set of one, and fails with the error [Unique result expected] for a
    result set of two or more, whatever was emitted before. *)
Theorem findOne_emits_null_one_or_error w query q0 fromServer resource :
  heap w !! query = Some q0 →
  ∃ o w',
    findOne query fromServer resource w = Some (o, w') ∧
    Rx.selected o = Query.queryId q0 ∧
    ∀ rest e,
      Rx.map (Rx.project o) ([] :: rest) e
        = Rx.Next Null :: Rx.map (Rx.project o) rest e ∧
      (∀ x,
        Rx.map (Rx.project o) ([x] :: rest) e
          = Rx.Next (if resource then AResource (StoreResource.resource x)
                     else AStoreResource x)
            :: Rx.map (Rx.project o) rest e) ∧
      (∀ it, 2 ≤ length it →
        Rx.map (Rx.project o) (it :: rest) e
          = [Rx.Failed (Js.Error "Unique result expected")]).
Proof.
  intros H. eexists _, _. split; [by apply findOne_run|].
  split; [done|].
  intros rest e. cbn [Rx.project]. repeat split.
  intros it Hit. cbn [Rx.map]. by rewrite findOne_project_many.
Qed.

Lemma findOne_emits_null_one_or_error_witness :
  heap Sample.world !! 1%positive = Some Sample.query22 ∧
  ∃ o w',
    findOne 1%positive false true Sample.world = Some (o, w') ∧
    Rx.selected o = Some "22" ∧
    Rx.map (Rx.project o)
      [[]; [Sample.record Sample.person9];
       [Sample.record Sample.person9; Sample.record Sample.person9]; []]
      Rx.Unsubscribed
    = [Rx.Next Null; Rx.Next (AResource Sample.person9);
       Rx.Failed (Js.Error "Unique result expected")].
Proof.
  split; [reflexivity|].
  destruct (findOne_emits_null_one_or_error Sample.world 1%positive
              Sample.query22 false true eq_refl)
    as (o & w' & Hrun & Hselected & Hmap).
  exists o, w'. split; [exact Hrun|]. split; [exact Hselected|].
  rewrite (proj1 (Hmap _ _)), (proj1 (proj2 (Hmap _ _))).
  rewrite (proj2 (proj2 (Hmap _ _))); [reflexivity|simpl; lia].
Defined.

(** C2: with [toRemote] false, [patchResource], [postResource] and
    [deleteResource] dispatch the store action and nothing else; with
    [toRemote] true they dispatch the remote action, with the resource as
    document and a query of type update, create or deleteOne, and nothing
    else: no edit is left in the store for [apply]. *)
Theorem edits_dispatch_store_or_remote_action (resource : Resource.t)
  (resourceId : ResourceIdentifier.t) (w : World) :
  let sent (a : Action) :=
    Some (tt, mkWorld (heap w) (dispatched w ++ [a]) (storeSnapshot w)) in
  let document :=
    Some (Document.mk
            (One (Resource.mk (Resource.type resource) (Resource.id resource)
                    (Resource.attributes resource)
                    (Resource.relationships resource))) []) in
  let query id queryType :=
    QueryLit (Query.mk None (Some (Resource.type resource)) id (Some queryType)
                None) in
  (patchResource resource false w = sent (PatchStoreResourceAction resource) ∧
   postResource resource false w = sent (PostStoreResourceAction resource) ∧
   deleteResource resourceId false w = sent (DeleteStoreResourceAction resourceId)) ∧
  (patchResource resource true w
     = sent (ApiUpdateInitAction
               (Payload.mk document
                  (query (Some (Resource.id resource)) "update"))) ∧
   postResource resource true w
     = sent (ApiCreateInitAction (Payload.mk document (query None "create"))) ∧
   deleteResource resourceId true w
     = sent (ApiDeleteInitAction
               (Payload.mk None
                  (QueryLit
                     (Query.mk None (Some (ResourceIdentifier.type resourceId))
                        (Some (ResourceIdentifier.id resourceId))
                        (Some "deleteOne") None))))) ∧
  (is_remote (PatchStoreResourceAction resource) = false ∧
   is_remote (PostStoreResourceAction resource) = false ∧
   is_remote (DeleteStoreResourceAction resourceId) = false).
Proof. done. Qed.

Lemma edits_dispatch_store_or_remote_action_witness :
  patchResource (Sample.article "1") true Sample.world
  = Some (tt, mkWorld (heap Sample.world)
                [ApiUpdateInitAction
                   (Payload.mk
                      (Some (Document.mk (One (Sample.article "1")) []))
                      (QueryLit (Query.mk None (Some "Article") (Some "1")
                                   (Some "update") None)))]
                (storeSnapshot Sample.world)).
Proof.
  exact (proj1 (proj1 (proj2
    (edits_dispatch_store_or_remote_action (Sample.article "1")
       (ResourceIdentifier.mk "Article" "1") Sample.world)))).
Defined.







Lemma get_inherited `{!Js.Builtins} {A} (object : gmap string A) key :
  object !! key = None → Js.inherits key = true →
  Js.get object key = Js.Inherited.
Proof. intros Hk Hi. unfold Js.get. by rewrite Hk, Hi. Qed.




(** C6: with [fromServer] true, [findOne] and [findMany] dispatch one
    action, an [ApiReadInitAction] whose payload holds the caller's query;
    with [fromServer] false they dispatch one action, a
    [QueryStoreInitAction] with the caller's query, which starts no remote
    operation. *)
Theorem find_dispatches_read_or_registration w query q0 resource :
  heap w !! query = Some q0 →
  let remote := ApiReadInitAction (Payload.mk None (QueryRef query)) in
  let local := QueryStoreInitAction (QueryRef query) in
  (∃ o w', findOne query true resource w = Some (o, w') ∧
           dispatched w' = dispatched w ++ [remote]) ∧
  (∃ o w', findMany query true resource w = Some (o, w') ∧
           dispatched w' = dispatched w ++ [remote]) ∧
  (∃ o w', findOne query false resource w = Some (o, w') ∧
           dispatched w' = dispatched w ++ [local]) ∧
  (∃ o w', findMany query false resource w = Some (o, w') ∧
           dispatched w' = dispatched w ++ [local]) ∧
  is_remote remote = true ∧ is_remote local = false.
Proof.
  intros H. cbn zeta.
  repeat split; try (eexists _, _; split;
    [by (apply findOne_run || apply findMany_run)|done]).
Qed.

Lemma find_dispatches_read_or_registration_witness :
  heap Sample.world !! 1%positive = Some Sample.query22 ∧
  ∃ o w', findMany 1%positive true false Sample.world = Some (o, w') ∧
          dispatched w'
          = [ApiReadInitAction (Payload.mk None (QueryRef 1%positive))].
Proof.
  split; [reflexivity|].
  exact (proj1 (proj2
    (find_dispatches_read_or_registration Sample.world 1%positive
       Sample.query22 false eq_refl))).
Defined.



End ServiceFacts.

(** ** The HTTP adapter *)

Section ApiFacts.

Context `{!Imports} (config : NgrxJsonApiConfig.t).

Lemma chosen_default {A} (configured : option NgrxJsonApiUrlBuilder.t)
  (member : NgrxJsonApiUrlBuilder.t → option A) (imported : A) :
  NgrxJsonApi.chosen configured member imported
  = default imported (configured ≫= member).
Proof.
  unfold NgrxJsonApi.chosen.
  destruct configured as [b|]; [|done].
  simpl. by destruct (member b).
Qed.

(** The test for empty [params] changes nothing: empty [params] have no key. *)
Lemma usableParams_key {A} (key : QueryParams.t → option A) (query : Query.t) :
  key (QueryParams.mk None None None None None None) = None →
  NgrxJsonApi.usableParams query ≫= key = Query.params query ≫= key.
Proof.
  intros Hkey. unfold NgrxJsonApi.usableParams.
  destruct (Query.params query) as [params|]; [|done].
  destruct (NgrxJsonApi.isEmpty params) eqn:E; [|done].
  destruct params as [[?|] [?|] [?|] [?|] [?|] [?|]]; try discriminate E.
  simpl. by rewrite Hkey.
Qed.

Lemma whenPresent_from_option {A} (value : option A) (generate : A → string) :
  NgrxJsonApi.whenPresent value generate = from_option generate "" value.
Proof. by destruct value. Qed.

Lemma guard_false {A} (x : option A) : NgrxJsonApi.guard x = false.
Proof. by destruct x. Qed.

End ApiFacts.




(** C9, as the code has it: the guards [typeof x === undefined] are false
    for every query and document, defined or not, so no call of [find],
    [create], [update] or [delete] ends in ['Query not found'] or ['Data not
    found']; with a defined query (and, for [create] and [update], a defined
    document; and, for [find], a configuration whose [urlBuilder] is absent
    or an object) each of them goes on to issue its request. *)
Theorem guards_never_fire `{!Imports} (config : NgrxJsonApiConfig.t)
  (query : option Query.t) (document : option Document.t) :
  (NgrxJsonApi.guard query = false ∧ NgrxJsonApi.guard document = false) ∧
  (∀ message,
     NgrxJsonApi.find config query ≠ Thrown message ∧
     NgrxJsonApi.create config query document ≠ Thrown message ∧
     NgrxJsonApi.update config query document ≠ Thrown message ∧
     NgrxJsonApi.delete config query ≠ Thrown message) ∧
  (∀ q d,
     (NgrxJsonApiConfig.urlBuilder config ≠ Js.HoldsNothing →
      ∃ r, NgrxJsonApi.find config (Some q) = Requested r ∧
           Request.method r = RequestMethod.Get) ∧
     (∃ r, NgrxJsonApi.create config (Some q) (Some d) = Requested r ∧
           Request.method r = RequestMethod.Post) ∧
     (∃ r, NgrxJsonApi.update config (Some q) (Some d) = Requested r ∧
           Request.method r = RequestMethod.Patch) ∧
     (∃ r, NgrxJsonApi.delete config (Some q) = Requested r ∧
           Request.method r = RequestMethod.Delete)).
Proof.
  split; [by rewrite !guard_false|]. split.
  - intros message.
    unfold NgrxJsonApi.find, NgrxJsonApi.create, NgrxJsonApi.update,
      NgrxJsonApi.delete.
    rewrite !guard_false.
    by destruct (NgrxJsonApiConfig.urlBuilder config), query, document.
  - intros q d. split; [|repeat split; by eexists].
    intros Hconfig. unfold NgrxJsonApi.find.
    destruct (NgrxJsonApiConfig.urlBuilder config); [|done|]; by eexists.
Qed.

Lemma guards_never_fire_witness :
  NgrxJsonApiConfig.urlBuilder Sample.config ≠ Js.HoldsNothing ∧
  ∃ r, NgrxJsonApi.find Sample.config (Some Sample.query22) = Requested r ∧
       Request.method r = RequestMethod.Get.
Proof.
  assert (NgrxJsonApiConfig.urlBuilder Sample.config ≠ Js.HoldsNothing)
    as Hconfig by discriminate.
  split; [exact Hconfig|].
  exact (proj1 (proj2 (proj2
    (guards_never_fire Sample.config None None)) Sample.query22
    (Document.mk (One Sample.person9) [])) Hconfig).
Defined.

(** C9, as stated, fails: with an undefined query, or with an undefined
    document, no request is issued; reading a property of [undefined] raises
    a [TypeError]. *)
Lemma undefined_query_raises_TypeError :
  NgrxJsonApi.find Sample.config None = TypeError ∧
  NgrxJsonApi.create Sample.config None None = TypeError ∧
  NgrxJsonApi.update Sample.config (Some Sample.query22) None = TypeError ∧
  NgrxJsonApi.delete Sample.config None = TypeError ∧
  ¬ (∀ query, ∃ r, NgrxJsonApi.find Sample.config query = Requested r).
Proof.
  repeat split; try reflexivity.
  intros H. destruct (H None) as [r Hr]. discriminate Hr.
Qed.

Lemma typeAndId_Some (query : Query.t) type id :
  Query.type query = Some type → Query.id query = Some id →
  type ≠ "" → id ≠ "" →
  NgrxJsonApi.typeAndId query = Some (type, id).
Proof.
  intros Ht Hi Hnt Hni. unfold NgrxJsonApi.typeAndId, Js.truthy.
  rewrite Ht, Hi.
  apply String.eqb_neq in Hnt, Hni. by rewrite Hnt, Hni.
Qed.

Lemma typeAndId_None (query : Query.t) :
  Js.truthy (Query.id query) = false → NgrxJsonApi.typeAndId query = None.
Proof.
  intros Hi. unfold NgrxJsonApi.typeAndId. rewrite Hi.
  by rewrite andb_false_r.
Qed.

(** C10, as the code has it: for a query without [id] (or with the empty
    string as [id]), [urlBuilder] with DELETE or PATCH runs into the POST case
    and returns the collection URL of the query's type; with [type] and [id]
    both present and not empty, GET, DELETE and PATCH return the URL of the
    single resource. *)
Theorem urlBuilder_falls_through `{!Imports} (config : NgrxJsonApiConfig.t)
  (query : Query.t) :
  (Query.id query = None ∨ Query.id query = Some "" →
   NgrxJsonApi.urlBuilder config query DELETE
     = NgrxJsonApi.collectionUrlFor config (Query.type query) ∧
   NgrxJsonApi.urlBuilder config query PATCH
     = NgrxJsonApi.collectionUrlFor config (Query.type query) ∧
   NgrxJsonApi.urlBuilder config query POST
     = NgrxJsonApi.collectionUrlFor config (Query.type query)) ∧
  (∀ type id,
     Query.type query = Some type → Query.id query = Some id →
     type ≠ "" → id ≠ "" →
     NgrxJsonApi.urlBuilder config query GET
       = NgrxJsonApi.resourceUrlFor config type id ∧
     NgrxJsonApi.urlBuilder config query DELETE
       = NgrxJsonApi.resourceUrlFor config type id ∧
     NgrxJsonApi.urlBuilder config query PATCH
       = NgrxJsonApi.resourceUrlFor config type id).
Proof.
  split.
  - intros Hid.
    assert (NgrxJsonApi.typeAndId query = None) as Hnone.
    { apply typeAndId_None. by destruct Hid as [-> | ->]. }
    unfold NgrxJsonApi.urlBuilder, NgrxJsonApi.case_DELETE,
      NgrxJsonApi.case_PATCH. by rewrite Hnone.
  - intros type id Ht Hi Hnt Hni.
    pose proof (typeAndId_Some query type id Ht Hi Hnt Hni) as Hsome.
    unfold NgrxJsonApi.urlBuilder, NgrxJsonApi.case_GET,
      NgrxJsonApi.case_DELETE, NgrxJsonApi.case_PATCH. by rewrite Hsome.
Qed.

Lemma urlBuilder_falls_through_witness :
  NgrxJsonApi.urlBuilder Sample.config
    (Query.mk None (Some "Article") None None None) DELETE
    = "http://api/articles" ∧
  NgrxJsonApi.urlBuilder Sample.config Sample.query22 PATCH
    = "http://api/articles/1".
Proof.
  pose proof (urlBuilder_falls_through Sample.config
                (Query.mk None (Some "Article") None None None)) as [Habsent _].
  pose proof (urlBuilder_falls_through Sample.config Sample.query22)
    as [_ Hpresent].
  split.
  - rewrite (proj1 (Habsent (or_introl eq_refl))). reflexivity.
  - assert ("Article" ≠ "" ∧ "1" ≠ "") as [Ht Hi] by (split; discriminate).
    rewrite (proj2 (proj2 (Hpresent "Article" "1" eq_refl eq_refl Ht Hi))).
    reflexivity.
Defined.

(** C10, as stated, fails: an [id] that is present but empty does not pass
    the test [query.type && query.id], and GET, DELETE and PATCH return the
    collection URL, not the URL of a single resource. *)
Lemma urlBuilder_empty_id_is_collection :
  let query := Query.mk None (Some "Article") (Some "") None None in
  Query.type query = Some "Article" ∧ Query.id query = Some "" ∧
  NgrxJsonApi.resourceUrlFor Sample.config "Article" "" = "http://api/articles/" ∧
  NgrxJsonApi.urlBuilder Sample.config query GET = "http://api/articles" ∧
  NgrxJsonApi.urlBuilder Sample.config query DELETE = "http://api/articles" ∧
  NgrxJsonApi.urlBuilder Sample.config query PATCH = "http://api/articles" ∧
  NgrxJsonApi.urlBuilder Sample.config query GET
    ≠ NgrxJsonApi.resourceUrlFor Sample.config "Article" "".
Proof. cbn zeta. repeat split; try reflexivity. discriminate. Qed.

(** ** The denormaliser terminates and marks cycles *)

Section DenormaliserFacts.
Import Denormaliser.

Context (data : NgrxJsonApiStoreData).

Lemma storedRecord_identifiers i record :
  storedRecord data i = Some record →
  ResourceIdentifier.to_pair i ∈ identifiers data.
Proof.
  intros H. unfold identifiers. apply elem_of_dom. exists record.
  destruct i as [ty id]. unfold ResourceIdentifier.to_pair; simpl.
  by rewrite lookup_map_uncurry.
Qed.

Lemma remaining_cons i record path :
  i ∉ path → storedRecord data i = Some record →
  size (remaining data (i :: path)) < size (remaining data path).
Proof.
  intros Hi Hl. apply subset_size. unfold remaining.
  apply storedRecord_identifiers in Hl.
  assert (ResourceIdentifier.to_pair i ∉
            (list_to_set (ResourceIdentifier.to_pair <$> path) : gset _)).
  { rewrite elem_of_list_to_set, list_elem_of_fmap. intros (j & Hj & Hin).
    destruct i, j. unfold ResourceIdentifier.to_pair in Hj; simpl in Hj.
    congruence. }
  rewrite fmap_cons, list_to_set_cons. set_solver.
Qed.

Lemma remaining_le path : size (remaining data path) ≤ size (identifiers data).
Proof. apply subseteq_size. unfold remaining. set_solver. Qed.

Lemma relate_is_Some {A B} (f : A → option B) (r : Related A) :
  Forall (λ a, is_Some (f a)) (members r) → is_Some (relate f r).
Proof.
  destruct r as [a|l]; unfold relate, members; intros H.
  - rewrite Forall_singleton in H. by rewrite fmap_is_Some.
  - rewrite fmap_is_Some. by apply mapM_is_Some.
Qed.

Lemma expandAll_is_Some f l :
  (∀ i, is_Some (f i)) → is_Some (expandAll f l).
Proof.
  intros Hf. unfold expandAll. apply mapM_is_Some, Forall_forall.
  intros r _. unfold compose. rewrite fmap_is_Some.
  apply relate_is_Some, Forall_forall. auto.
Qed.

Lemma expand_total fuel path i resource :
  size (remaining data (i :: path)) < fuel →
  is_Some (expand fuel data path i resource).
Proof.
  revert path i resource.
  induction fuel as [|fuel IH]; intros path i resource Hfuel; [lia|].
  simpl. destruct (expandAll _ _) as [related|] eqn:E; [by eexists|].
  exfalso. apply (is_Some_None (A := list (string * Related Denormalised))).
  rewrite <- E. apply expandAll_is_Some. intros j. unfold resolve.
  case_decide; [by eexists|].
  destruct (storedRecord data j) as [record|] eqn:Hl; [|by eexists].
  apply IH. pose proof (remaining_cons j record (i :: path)). naive_solver lia.
Qed.

Lemma relate_mono {A B} (f g : A → option B) (r : Related A) y :
  (∀ a b, f a = Some b → g a = Some b) →
  relate f r = Some y → relate g r = Some y.
Proof.
  intros Hfg. destruct r as [a|l]; unfold relate; rewrite !fmap_Some.
  - intros (b & Hb & ->). eauto.
  - intros (bs & Hbs & ->). exists bs. split; [|done].
    apply mapM_Some. apply mapM_Some in Hbs.
    eapply Forall2_impl; [exact Hbs|]. auto.
Qed.

Lemma expandAll_mono f g l k :
  (∀ a b, f a = Some b → g a = Some b) →
  expandAll f l = Some k → expandAll g l = Some k.
Proof.
  intros Hfg. unfold expandAll. rewrite !mapM_Some. intros H.
  eapply Forall2_impl; [exact H|]. intros r y. simpl. rewrite !fmap_Some.
  intros (x & Hx & ->). exists x. split; [|done]. by eapply relate_mono.
Qed.

Lemma resolve_mono path f g i t :
  (∀ j r b, f j r = Some b → g j r = Some b) →
  resolve data path f i = Some t → resolve data path g i = Some t.
Proof.
  intros Hfg. unfold resolve. case_decide; [done|].
  destruct (storedRecord data i); [apply Hfg|done].
Qed.

Lemma expand_mono fuel fuel' path i resource t :
  fuel ≤ fuel' →
  expand fuel data path i resource = Some t →
  expand fuel' data path i resource = Some t.
Proof.
  revert fuel' path i resource t.
  induction fuel as [|fuel IH]; intros fuel' path i resource t Hle; [done|].
  destruct fuel' as [|fuel']; [lia|]. simpl.
  destruct (expandAll _ _) as [related|] eqn:E; [|done].
  intros Ht. erewrite expandAll_mono; [exact Ht| |exact E].
  intros a b. apply resolve_mono. intros j r c. apply IH. lia.
Qed.

(** What [expandAll] returns lines up with the references it was given. *)
Lemma expandAll_spec (Q : Denormalised → Prop) f l k :
  (∀ j t, f j = Some t → reference t = j ∧ Q t) →
  expandAll f l = Some k →
  (λ r, (r.1, relatedMap reference r.2)) <$> k = l ∧
  Forall (λ r, Forall Q (members r.2)) k.
Proof.
  intros Hf. unfold expandAll. rewrite mapM_Some.
  induction 1 as [|r y l k Hy _ [IH1 IH2]]; [done|].
  apply fmap_Some in Hy as (x & Hx & ->).
  rewrite fmap_cons, IH1. simpl.
  assert (relatedMap reference x = r.2 ∧ Forall Q (members x)) as [-> HQ].
  { destruct r as [name [a|js]]; simpl in *.
    - apply fmap_Some in Hx as (b & Hb & ->). apply Hf in Hb as [<- Hb].
      split; [done|]. by apply Forall_singleton.
    - apply fmap_Some in Hx as (bs & Hbs & ->). apply mapM_Some in Hbs.
      simpl. induction Hbs as [|j b js bs Hb _ [IHa IHb]]; [done|].
      apply Hf in Hb as [<- Hb]. split.
      + rewrite fmap_cons. by simplify_eq.
      + by constructor. }
  split; [by destruct r|by constructor].
Qed.

Lemma expand_spec fuel path i resource t :
  expand fuel data path i resource = Some t →
  ∃ related,
    t = Expanded i resource related ∧
    (λ r, (r.1, relatedMap reference r.2)) <$> related = references resource ∧
    Forall (λ r, Forall (denotes data (i :: path)) (members r.2)) related.
Proof.
  revert path i resource t.
  induction fuel as [|fuel IH]; intros path i resource t; [done|].
  simpl. destruct (expandAll _ _) as [related|] eqn:E; [|done].
  intros [= <-]. exists related. split; [done|].
  eapply expandAll_spec; [|exact E].
  intros j t. unfold resolve. case_decide as Hj.
  - intros [= <-]. split; [done|]. by constructor.
  - destruct (storedRecord data j) as [record|] eqn:Hl.
    + intros Ht. apply IH in Ht as (rel & -> & Hal & Hch).
      split; [done|]. by constructor.
    + intros [= <-]. split; [done|]. by constructor.
Qed.

End DenormaliserFacts.

(** C4: denormalisation returns a result for every record and every store,
    cyclic or not, and the same result for any larger bound on the depth; in
    the result every reference of every expanded resource is replaced, in
    order, and the replacement of a reference that is on the path from the
    root is a placeholder, which holds the identifier and has no
    relationships. *)
Theorem denormalise_terminates_on_cycles (item : StoreResource.t)
  (storeData : NgrxJsonApiStoreData) :
  ∃ t,
    NgrxJsonApiService.denormalise item storeData = Some t ∧
    (∀ fuel,
       size (Denormaliser.identifiers storeData) < fuel →
       Denormaliser.expand fuel storeData []
         (Resource.identifier (StoreResource.resource item))
         (StoreResource.resource item) = Some t) ∧
    Denormaliser.denotesRoot storeData item t.
Proof.
  unfold NgrxJsonApiService.denormalise, Denormaliser.denormaliseResource.
  cbn zeta.
  set (i := Resource.identifier (StoreResource.resource item)).
  destruct (expand_total storeData (S (size (Denormaliser.identifiers storeData)))
              [] i (StoreResource.resource item)) as [t Ht].
  { pose proof (remaining_le storeData [i]). lia. }
  exists t. split; [exact Ht|]. split.
  - intros fuel Hfuel. eapply expand_mono; [|exact Ht]. lia.
  - by apply expand_spec in Ht.
Qed.

Lemma denormalise_terminates_on_cycles_witness :
  let article1 := ResourceIdentifier.mk "Article" "1" in
  let article7 := ResourceIdentifier.mk "Article" "7" in
  let person9 := ResourceIdentifier.mk "Person" "9" in
  ∃ t,
    NgrxJsonApiService.denormalise (Sample.record (Sample.article "1"))
      Sample.cyclicData = Some t ∧
    Denormaliser.denotesRoot Sample.cyclicData
      (Sample.record (Sample.article "1")) t ∧
    t = Denormaliser.Expanded article1 (Sample.article "1")
          [("author",
            Denormaliser.RelatedOne
              (Denormaliser.Expanded person9 Sample.author9
                 [("articles",
                   Denormaliser.RelatedMany
                     [Denormaliser.Placeholder article1;
                      Denormaliser.UnresolvedReference article7])]))].
Proof.
  cbn zeta.
  destruct (denormalise_terminates_on_cycles
              (Sample.record (Sample.article "1")) Sample.cyclicData)
    as (t & Ht & _ & Hroot).
  exists t. split; [exact Ht|]. split; [exact Hroot|].
  revert Ht. vm_compute. intros [= <-]. reflexivity.
Defined.

(** * Further properties of the service *)

Section MoreServiceFacts.
Import NgrxJsonApiService.

Context {builtins : Js.Builtins}.

Lemma sameButQueryType_refl (q : Query.t) : Runs.sameButQueryType q q.
Proof. by repeat split. Qed.

Lemma sameButQueryType_trans (q1 q2 q3 : Query.t) :
  Runs.sameButQueryType q1 q2 → Runs.sameButQueryType q2 q3 →
  Runs.sameButQueryType q1 q3.
Proof.
  intros (? & ? & ? & ?) (? & ? & ? & ?). repeat split; congruence.
Qed.

(** One call: what it needs, what it dispatches, what it does to the heap. *)
Lemma perform_run (c : Runs.Call) (w : World) :
  (∀ query, Runs.needs c = Some query → is_Some (heap w !! query)) →
  ∃ w',
    Runs.perform c w = Some (tt, w') ∧
    dispatched w' = dispatched w ++ Runs.issued c ∧
    storeSnapshot w' = storeSnapshot w ∧
    ∀ l, option_Forall2 Runs.sameButQueryType (heap w !! l) (heap w' !! l).
Proof.
  assert (∀ l, option_Forall2 Runs.sameButQueryType (heap w !! l) (heap w !! l))
    as Hsame.
  { intros l. destruct (heap w !! l); constructor. apply sameButQueryType_refl. }
  assert (∀ query q0 v l,
            heap w !! query = Some q0 →
            option_Forall2 Runs.sameButQueryType (heap w !! l)
              (<[query := Query.set_queryType v q0]> (heap w) !! l)) as Hset.
  { intros query q0 v l Hq. destruct (decide (query = l)) as [<-|Hne].
    - rewrite lookup_insert_eq, Hq. constructor. by repeat split.
    - rewrite lookup_insert_ne by done. apply Hsame. }
  intros Hneeds. destruct c; cbn [Runs.perform Runs.issued].
  - destruct (Hneeds query eq_refl) as [q0 Hq].
    unfold mbind, M_bind. rewrite (findOne_run _ _ q0) by done.
    eexists. split; [done|]. cbn. split; [by destruct fromServer|].
    split; [done|]. intros l. by apply Hset.
  - destruct (Hneeds query eq_refl) as [q0 Hq].
    unfold mbind, M_bind. rewrite (findMany_run _ _ q0) by done.
    eexists. split; [done|]. cbn. split; [by destruct fromServer|].
    split; [done|]. intros l. by apply Hset.
  - exists w. unfold getResourceSnapshot, mbind, M_bind, getSnapshot.
    rewrite app_nil_r.
    by destruct (probeRecord _ _).
  - exists w. unfold getPersistedResourceSnapshot, mbind, M_bind, getSnapshot.
    rewrite app_nil_r.
    by destruct (probeRecord _ _).
  - destruct toRemote; by eexists.
  - destruct toRemote; by eexists.
  - destruct toRemote; by eexists.
  - by eexists.
Qed.

(** X5: a run of calls succeeds when the query objects of its [findOne] and
    [findMany] calls exist; the actions are dispatched in the order of the
    calls, behind those dispatched before; no query object appears or
    disappears, and none changes but in its [queryType]. *)
Theorem calls_dispatch_in_order (cs : list Runs.Call) (w : World) :
  (∀ c query, c ∈ cs → Runs.needs c = Some query → is_Some (heap w !! query)) →
  ∃ w',
    Runs.performAll cs w = Some (tt, w') ∧
    dispatched w' = dispatched w ++ (cs ≫= Runs.issued) ∧
    ∀ l, option_Forall2 Runs.sameButQueryType (heap w !! l) (heap w' !! l).
Proof.
  revert w. induction cs as [|c cs IH]; intros w Hneeds.
  - exists w. split; [done|]. split; [by rewrite app_nil_r|].
    intros l. destruct (heap w !! l); constructor. apply sameButQueryType_refl.
  - destruct (perform_run c w) as (w1 & Hrun & Hlog & _ & Hheap).
    { intros query. apply Hneeds. by left. }
    destruct (IH w1) as (w' & Hrest & Hlog' & Hheap').
    { intros c' query Hc' Hn.
      destruct (Hneeds c' query) as [q Hq]; [by right|done|].
      specialize (Hheap query). rewrite Hq in Hheap.
      inversion Hheap. by eexists. }
    exists w'. cbn [Runs.performAll]. unfold mbind at 1, M_bind. rewrite Hrun.
    split; [done|]. split.
    + rewrite Hlog', Hlog. cbn. by rewrite app_assoc.
    + intros l. specialize (Hheap l). specialize (Hheap' l).
      destruct Hheap as [q1 q2 H12|]; inversion Hheap' as [q2' q3 H23|]; subst;
        constructor. by eapply sameButQueryType_trans.
Qed.

(** X1: the observable of [findMany] passes every emission on, as the list
    itself or as the list of its resources, in order and of the same length;
    it adds no failure of its own, and ends as the source does. *)
Theorem findMany_passes_every_emission w query q0 fromServer resource :
  heap w !! query = Some q0 →
  ∃ o w',
    findMany query fromServer resource w = Some (o, w') ∧
    ∀ xs e,
      ∃ values,
        Rx.map (Rx.project o) xs e = (Rx.Next <$> values) ++ Rx.finish e ∧
        Forall2 (λ it v,
                   if resource
                   then ∃ rs, v = Resources rs ∧ length rs = length it ∧
                          ∀ i, rs !! i = StoreResource.resource <$> it !! i
                   else v = StoreResources it) xs values.
Proof.
  intros H. eexists _, _. split; [by apply findMany_run|].
  cbn [Rx.project]. intros xs e.
  induction xs as [|it xs (values & Hmap & Hvalues)].
  - exists []. by split.
  - eexists (_ :: values). cbn [Rx.map findMany_project]. rewrite Hmap.
    split; [done|]. constructor; [|done].
    destruct resource; [|done]. eexists. split; [done|].
    split; [by rewrite length_fmap|]. intros i. by rewrite list_lookup_fmap.
Qed.

Lemma findMany_passes_every_emission_witness :
  heap Sample.world !! 1%positive = Some Sample.query22 ∧
  ∃ o w',
    findMany 1%positive false true Sample.world = Some (o, w') ∧
    Rx.map (Rx.project o)
      [[]; [Sample.record Sample.person9; Sample.record (Sample.article "1")]]
      Rx.SourceCompleted
    = [Rx.Next (Resources []);
       Rx.Next (Resources [Sample.person9; Sample.article "1"]);
       Rx.Completed].
Proof.
  split; [reflexivity|].
  destruct (findMany_passes_every_emission Sample.world 1%positive
              Sample.query22 false true eq_refl) as (o & w' & Hrun & _).
  exists o, w'. split; [exact Hrun|].
  revert Hrun. vm_compute. intros [= <- _]. reflexivity.
Defined.

(** X2: the observable of [findOne] delivers a value for every emission of
    at most one record; the first emission of two or more records is
    answered by the failure, and nothing is delivered after it: neither the
    later emissions nor the end of the source. *)
Theorem findOne_stops_at_first_non_unique w query q0 fromServer resource :
  heap w !! query = Some q0 →
  ∃ o w',
    findOne query fromServer resource w = Some (o, w') ∧
    (∀ xs e,
       Forall (λ it : list StoreResource.t, length it ≤ 1) xs →
       ∃ values,
         length values = length xs ∧
         Rx.map (Rx.project o) xs e = (Rx.Next <$> values) ++ Rx.finish e) ∧
    (∀ before it after e,
       Forall (λ it : list StoreResource.t, length it ≤ 1) before →
       2 ≤ length it →
       ∃ values,
         length values = length before ∧
         Rx.map (Rx.project o) (before ++ it :: after) e
         = (Rx.Next <$> values) ++ [Rx.Failed (Js.Error "Unique result expected")]).
Proof.
  intros H. eexists _, _. split; [by apply findOne_run|].
  cbn [Rx.project].
  assert (∀ it : list StoreResource.t,
            length it ≤ 1 → ∃ v, findOne_project resource it = inr v) as Hone.
  { intros [|x [|y it]] Hit; [by eexists|by eexists|simpl in Hit; lia]. }
  split.
  - intros xs e Hxs. induction Hxs as [|it xs Hit _ (values & Hlen & Hmap)].
    + by exists [].
    + destruct (Hone it Hit) as [v Hv]. exists (v :: values).
      cbn [Rx.map]. rewrite Hv, Hmap. split; [|done]. simpl. by rewrite Hlen.
  - intros before it after e Hbefore Hit.
    induction Hbefore as [|x xs Hx _ (values & Hlen & Hmap)].
    + exists []. split; [done|]. cbn [app Rx.map].
      by rewrite findOne_project_many.
    + destruct (Hone x Hx) as [v Hv]. exists (v :: values).
      rewrite <- app_comm_cons. cbn [Rx.map]. rewrite Hv, Hmap.
      split; [|done]. simpl. by rewrite Hlen.
Qed.

Lemma findOne_stops_at_first_non_unique_witness :
  heap Sample.world !! 1%positive = Some Sample.query22 ∧
  ∃ o w',
    findOne 1%positive false false Sample.world = Some (o, w') ∧
    ∃ values,
      length values = 1 ∧
      Rx.map (Rx.project o)
        ([[]] ++
         [Sample.record Sample.person9; Sample.record Sample.person9]
         :: [[]; []]) Rx.SourceCompleted
      = (Rx.Next <$> values) ++ [Rx.Failed (Js.Error "Unique result expected")].
Proof.
  split; [reflexivity|].
  destruct (findOne_stops_at_first_non_unique Sample.world 1%positive
              Sample.query22 false false eq_refl) as (o & w' & Hrun & _ & Hstop).
  exists o, w'. split; [exact Hrun|].
  apply (Hstop [[]]).
  - repeat constructor.
  - simpl. lia.
Defined.




(** X4: a query object handed to [findOne] and then to [findMany] is held
    by both dispatched actions; behind the first action a reader finds
    ['getOne'] after the first call and ['getMany'] after the second. *)
Theorem reused_query_is_shared w query q0 fromServer fromServer' resource resource' :
  heap w !! query = Some q0 →
  ∃ one many w1 w2 first second,
    findOne query fromServer resource w = Some (one, w1) ∧
    findMany query fromServer' resource' w1 = Some (many, w2) ∧
    dispatchedSince w w2 = [first; second] ∧
    Runs.carried first = Some (QueryRef query) ∧
    Runs.carried second = Some (QueryRef query) ∧
    Query.queryType <$> (Runs.carried first ≫= Runs.queried (heap w1))
      = Some (Some "getOne") ∧
    Query.queryType <$> (Runs.carried first ≫= Runs.queried (heap w2))
      = Some (Some "getMany") ∧
    Rx.selected one = Query.queryId q0 ∧ Rx.selected many = Query.queryId q0.
Proof.
  intros H. eexists _, _, _, _, _, _.
  split; [by apply findOne_run|].
  split; [apply findMany_run; cbn [heap]; apply lookup_insert_eq|].
  unfold dispatchedSince. cbn [dispatched heap].
  rewrite <- !app_assoc, drop_app_length. split; [done|].
  destruct fromServer, fromServer'; cbn; rewrite ?lookup_insert_eq; done.
Qed.

Lemma reused_query_is_shared_witness :
  heap Sample.world !! 1%positive = Some Sample.query22 ∧
  ∃ one many w1 w2 first second,
    findOne 1%positive false false Sample.world = Some (one, w1) ∧
    findMany 1%positive true false w1 = Some (many, w2) ∧
    dispatchedSince Sample.world w2 = [first; second] ∧
    Runs.carried first = Some (QueryRef 1%positive) ∧
    Query.queryType <$> (Runs.carried first ≫= Runs.queried (heap w2))
      = Some (Some "getMany").
Proof.
  split; [reflexivity|].
  destruct (reused_query_is_shared Sample.world 1%positive Sample.query22
              false true false false eq_refl)
    as (one & many & w1 & w2 & first & second & Hone & Hmany & Hlog & Hfirst
        & _ & _ & Hq & _).
  exists one, many, w1, w2, first, second.
  split; [exact Hone|]. split; [exact Hmany|]. split; [exact Hlog|].
  split; [exact Hfirst|exact Hq].
Defined.

(** X6: [getResourceSnapshot] returns [null] exactly when the lookup
    finds nothing: the snapshot has no entry for the type and the type names
    no inherited member, or names one whose property of the id's name is
    falsy; or the entry for the type has none for the id and the id names no
    inherited member. [getPersistedResourceSnapshot] returns [null] in those
    cases and for the records that were never persisted, so that [null] from
    the first implies [null] from the second and not the other way round. *)
Theorem null_snapshots (w : World) (identifier : ResourceIdentifier.t) :
  let data := NgrxJsonApiStore.data (storeSnapshot w) in
  let type := ResourceIdentifier.type identifier in
  let id := ResourceIdentifier.id identifier in
  let nothing :=
    match data !! type with
    | Some byId => byId !! id = None ∧ Js.inherits id = false
    | None =>
        Js.inherits type = false ∨ Js.probeInherited type id = Js.Falsy
    end in
  (getResourceSnapshot identifier w = Some (Snapshot.Null, w) ↔ nothing) ∧
  (getPersistedResourceSnapshot identifier w = Some (Snapshot.Null, w) ↔
   nothing ∨
   ∃ byId record, data !! type = Some byId ∧ byId !! id = Some record ∧
                  StoreResource.persistedResource record = None) ∧
  (getResourceSnapshot identifier w = Some (Snapshot.Null, w) →
   getPersistedResourceSnapshot identifier w = Some (Snapshot.Null, w)).
Proof.
  cbn zeta. unfold getResourceSnapshot, getPersistedResourceSnapshot.
  unfold mbind, M_bind, getSnapshot, probeRecord, Js.get.
  destruct (NgrxJsonApiStore.data (storeSnapshot w)
              !! ResourceIdentifier.type identifier) as [byId|] eqn:Ht.
  - destruct (byId !! ResourceIdentifier.id identifier) as [record|] eqn:Hi.
    + destruct (StoreResource.persistedResource record) eqn:Hp;
        cbn; rewrite ?Hp; naive_solver.
    + destruct (Js.inherits (ResourceIdentifier.id identifier)) eqn:Hn;
        cbn; naive_solver.
  - destruct (Js.inherits (ResourceIdentifier.type identifier)) eqn:Hn.
    + destruct (Js.probeInherited _ _) eqn:Hprobe; cbn; naive_solver.
    + cbn. naive_solver.
Qed.

End MoreServiceFacts.

Lemma calls_dispatch_in_order_witness :
  ∃ w',
    Runs.performAll
      [Runs.FindOne 1%positive false false;
       Runs.GetResourceSnapshot (ResourceIdentifier.mk "Article" "1");
       Runs.PatchResource Sample.person9 false;
       Runs.FindMany 1%positive true true;
       Runs.Apply] Sample.world = Some (tt, w') ∧
    dispatched w'
    = [QueryStoreInitAction (QueryRef 1%positive);
       PatchStoreResourceAction Sample.person9;
       ApiReadInitAction (Payload.mk None (QueryRef 1%positive));
       ApiApplyInitAction].
Proof.
  destruct (calls_dispatch_in_order
              [Runs.FindOne 1%positive false false;
               Runs.GetResourceSnapshot (ResourceIdentifier.mk "Article" "1");
               Runs.PatchResource Sample.person9 false;
               Runs.FindMany 1%positive true true;
               Runs.Apply] Sample.world) as (w' & Hrun & Hlog & _).
  { intros c query Hc Hn.
    assert (query = 1%positive) as ->.
    { repeat (apply elem_of_cons in Hc as [->|Hc]; [by inversion Hn|]).
      by apply elem_of_nil in Hc. }
    by eexists. }
  exists w'. split; [exact Hrun|]. rewrite Hlog. reflexivity.
Defined.

Lemma null_snapshots_witness :
  NgrxJsonApiService.getResourceSnapshot (ResourceIdentifier.mk "Article" "2") Sample.world
    ≠ Some (Snapshot.Null, Sample.world) ∧
  NgrxJsonApiService.getPersistedResourceSnapshot (ResourceIdentifier.mk "Article" "2") Sample.world
    = Some (Snapshot.Null, Sample.world) ∧
  NgrxJsonApiService.getResourceSnapshot (ResourceIdentifier.mk "toString" "length") Sample.world
    = Some (Snapshot.Null, Sample.world).
Proof.
  pose proof (null_snapshots Sample.world (ResourceIdentifier.mk "Article" "2"))
    as (Hresource & Hpersisted & _).
  pose proof (null_snapshots Sample.world
                (ResourceIdentifier.mk "toString" "length"))
    as (Hfalsy & _ & _).
  split; [|split].
  - intros Hnull. apply Hresource in Hnull. destruct Hnull as [Hnull _].
    discriminate Hnull.
  - apply Hpersisted. right. eexists _, _. repeat split; reflexivity.
  - apply Hfalsy. right. reflexivity.
Defined.

(** * Further properties of the HTTP adapter *)

Lemma string_append_assoc (a b c : string) : (a +:+ b) +:+ c = a +:+ b +:+ c.
Proof. induction a as [|x a IH]; [done|]. exact (f_equal (String x) IH). Qed.

Section MoreApiFacts.

Context `{!Imports} (config : NgrxJsonApiConfig.t).

Lemma find_first {A} (f : A → bool) (before : list A) (x : A) (after : list A) :
  Forall (λ y, f y = false) before → f x = true →
  List.find f (before ++ x :: after) = Some x.
Proof.
  intros Hbefore Hx. induction Hbefore as [|y before Hy _ IH]; simpl.
  - by rewrite Hx.
  - by rewrite Hy.
Qed.

Lemma find_nowhere {A} (f : A → bool) (l : list A) :
  Forall (λ y, f y = false) l → List.find f l = None.
Proof. induction 1 as [|y l Hy _ IH]; simpl; [done|]. by rewrite Hy. Qed.

Lemma collectionPathFor_absent :
  NgrxJsonApi.collectionPathFor config None = None.
Proof.
  unfold NgrxJsonApi.collectionPathFor.
  rewrite find_nowhere; [done|]. apply Forall_forall. intros d _.
  by apply bool_decide_eq_false.
Qed.

(** X7: the collection path of a type is the [collectionPath] of the first
    resource definition of that type, whatever definitions follow it; it is
    the type itself when no definition has that type, and [undefined], the
    value, for an absent type; the collection URL then has the text
    ['undefined'] in its place. *)
Theorem collectionPathFor_first_definition :
  (∀ type before definition after,
     NgrxJsonApiConfig.resourceDefinitions config
       = before ++ definition :: after →
     ResourceDefinition.type definition = type →
     Forall (λ d, ResourceDefinition.type d ≠ type) before →
     NgrxJsonApi.collectionPathFor config (Some type)
       = Some (ResourceDefinition.collectionPath definition)) ∧
  (∀ type,
     Forall (λ d, ResourceDefinition.type d ≠ type)
       (NgrxJsonApiConfig.resourceDefinitions config) →
     NgrxJsonApi.collectionPathFor config (Some type) = Some type) ∧
  NgrxJsonApi.collectionPathFor config None = None ∧
  NgrxJsonApi.collectionUrlFor config None
    = NgrxJsonApiConfig.apiUrl config +:+ "/undefined".
Proof.
  split; [|split]; [| |split; [apply collectionPathFor_absent|]];
    [| |unfold NgrxJsonApi.collectionUrlFor; cbn zeta;
        by rewrite collectionPathFor_absent];
    unfold NgrxJsonApi.collectionPathFor, NgrxJsonApi.definitions.
  - intros type before definition after -> Htype Hbefore.
    rewrite find_first; [done| |by apply bool_decide_eq_true; f_equal].
    eapply Forall_impl; [exact Hbefore|]. intros d Hd.
    apply bool_decide_eq_false. congruence.
  - intros type Hnone. rewrite find_nowhere; [done|].
    eapply Forall_impl; [exact Hnone|]. intros d Hd.
    apply bool_decide_eq_false. congruence.
Qed.

(** X8: the URL of a resource is the URL of the collection of its type,
    a slash and the encoded id. *)
Theorem resourceUrl_extends_collectionUrl (type id : string) :
  NgrxJsonApi.resourceUrlFor config type id
  = NgrxJsonApi.collectionUrlFor config (Some type)
    +:+ "/" +:+ encodeURIComponent id.
Proof.
  unfold NgrxJsonApi.resourceUrlFor, NgrxJsonApi.resourcePathFor,
    NgrxJsonApi.collectionUrlFor.
  cbn zeta. by rewrite !string_append_assoc.
Qed.

Lemma urlBuilder_cases (query : Query.t) (operation : OperationType) :
  NgrxJsonApi.urlBuilder config query operation
  = match operation, NgrxJsonApi.typeAndId query with
    | POST, _ | _, None => NgrxJsonApi.collectionUrlFor config (Query.type query)
    | _, Some (type, id) => NgrxJsonApi.resourceUrlFor config type id
    end.
Proof.
  unfold NgrxJsonApi.urlBuilder, NgrxJsonApi.case_GET, NgrxJsonApi.case_DELETE,
    NgrxJsonApi.case_PATCH, NgrxJsonApi.case_POST.
  destruct operation, (NgrxJsonApi.typeAndId query) as [[type id]|];
    try done.
  by destruct (Js.truthy (Query.type query)).
Qed.

Lemma urlBuilder_by_type_and_id_aux (query : Query.t) :
  NgrxJsonApi.urlBuilder config query PATCH
    = NgrxJsonApi.urlBuilder config query GET ∧
  NgrxJsonApi.urlBuilder config query DELETE
    = NgrxJsonApi.urlBuilder config query GET ∧
  NgrxJsonApi.urlBuilder config query POST
    = NgrxJsonApi.collectionUrlFor config (Query.type query).
Proof. by rewrite !urlBuilder_cases. Qed.

(** X9: for every query, GET, DELETE and PATCH are sent to the same URL;
    POST is sent to the collection URL whether the query has an [id] or not;
    and the URL depends on nothing of the query but [type] and [id]. *)
Theorem urlBuilder_by_type_and_id (query : Query.t) :
  NgrxJsonApi.urlBuilder config query DELETE
    = NgrxJsonApi.urlBuilder config query GET ∧
  NgrxJsonApi.urlBuilder config query PATCH
    = NgrxJsonApi.urlBuilder config query GET ∧
  NgrxJsonApi.urlBuilder config query POST
    = NgrxJsonApi.collectionUrlFor config (Query.type query) ∧
  ∀ queryId queryType params operation,
    NgrxJsonApi.urlBuilder config
      (Query.mk queryId (Query.type query) (Query.id query) queryType params)
      operation
    = NgrxJsonApi.urlBuilder config query operation.
Proof.
  rewrite !urlBuilder_cases.
  split; [done|]. split; [done|]. split; [done|].
  intros queryId queryType params operation. by rewrite !urlBuilder_cases.
Qed.

(** X10: a query whose [type] or whose [id] is absent or empty gets the
    collection URL of its [type] for every operation; without [type] that is
    the API URL followed by ['/undefined'], whatever the [id] and the
    resource definitions. *)
Theorem urlBuilder_without_type_or_id (query : Query.t) (operation : OperationType) :
  (Js.truthy (Query.type query) = false ∨ Js.truthy (Query.id query) = false →
   NgrxJsonApi.urlBuilder config query operation
     = NgrxJsonApi.collectionUrlFor config (Query.type query)) ∧
  (Query.type query = None →
   NgrxJsonApi.urlBuilder config query operation
     = NgrxJsonApiConfig.apiUrl config +:+ "/undefined").
Proof.
  assert (Js.truthy (Query.type query) = false ∨
          Js.truthy (Query.id query) = false →
          NgrxJsonApi.urlBuilder config query operation
            = NgrxJsonApi.collectionUrlFor config (Query.type query)) as Hfalsy.
  { intros Hfalsy. rewrite urlBuilder_cases.
    assert (NgrxJsonApi.typeAndId query = None) as ->; [|by destruct operation].
    unfold NgrxJsonApi.typeAndId.
    destruct Hfalsy as [-> | ->]; [done|by rewrite andb_false_r]. }
  split; [exact Hfalsy|].
  intros Htype. rewrite Hfalsy by (left; by rewrite Htype). rewrite Htype.
  unfold NgrxJsonApi.collectionUrlFor. cbn zeta.
  by rewrite collectionPathFor_absent.
Qed.

Lemma urlBuilder_below_apiUrl (query : Query.t) (operation : OperationType) :
  ∃ path,
    NgrxJsonApi.urlBuilder config query operation
    = NgrxJsonApiConfig.apiUrl config +:+ "/" +:+ path.
Proof.
  rewrite urlBuilder_cases.
  destruct operation, (NgrxJsonApi.typeAndId query) as [[type id]|];
    by eexists.
Qed.

(** X11: for a defined query and document, [update] and [delete] address
    the URL that [urlBuilder] gives for GET, and [find], for a
    configuration whose [urlBuilder] is absent or an object, addresses that
    URL with the assembled parameters behind it: the assembling generator
    applied to the parameters of include, filtering, sorting and fields and
    to ['page[offset]='] and ['page[limit]='] with their numbers, each empty
    when [query.params] has no such key. [create] addresses the collection
    URL; [create] and [update] send the serialised [data] of the document,
    [find] and [delete] send no body. *)
Theorem entry_points_address_one_url (query : Query.t) (document : Document.t) :
  let url := NgrxJsonApi.urlBuilder config query GET in
  let generator (A : Type) (member : NgrxJsonApiUrlBuilder.t → option A)
                (imported : A) : A :=
    default imported (Js.held (NgrxJsonApiConfig.urlBuilder config) ≫= member) in
  let param (A : Type) (key : QueryParams.t → option A)
            (generate : A → string) : string :=
    from_option generate "" (Query.params query ≫= key) in
  let queryParams :=
    generator _ NgrxJsonApiUrlBuilder.generateQueryParams generateQueryParams
      [param _ QueryParams.include
         (generator _ NgrxJsonApiUrlBuilder.generateIncludedQueryParams
            generateIncludedQueryParams);
       param _ QueryParams.filtering
         (generator _ NgrxJsonApiUrlBuilder.generateFilteringQueryParams
            generateFilteringQueryParams);
       param _ QueryParams.sorting
         (generator _ NgrxJsonApiUrlBuilder.generateSortingQueryParams
            generateSortingQueryParams);
       param _ QueryParams.fields
         (generator _ NgrxJsonApiUrlBuilder.generateFieldsQueryParams
            generateFieldsQueryParams);
       param _ QueryParams.offset
         (λ offset, "page[offset]=" +:+ numberToString offset);
       param _ QueryParams.limit
         (λ limit, "page[limit]=" +:+ numberToString limit)] in
  (NgrxJsonApiConfig.urlBuilder config ≠ Js.HoldsNothing →
   NgrxJsonApi.find config (Some query)
     = Requested (Request.mk RequestMethod.Get (url +:+ queryParams) None
                    NgrxJsonApi.headers)) ∧
  NgrxJsonApi.update config (Some query) (Some document)
    = Requested (Request.mk RequestMethod.Patch url
                   (Some (stringify (Document.data document)))
                   NgrxJsonApi.headers) ∧
  NgrxJsonApi.delete config (Some query)
    = Requested (Request.mk RequestMethod.Delete url None NgrxJsonApi.headers) ∧
  NgrxJsonApi.create config (Some query) (Some document)
    = Requested (Request.mk RequestMethod.Post
                   (NgrxJsonApi.collectionUrlFor config (Query.type query))
                   (Some (stringify (Document.data document)))
                   NgrxJsonApi.headers).
Proof.
  cbn zeta. split.
  - intros Hconfig. unfold NgrxJsonApi.find.
    destruct (NgrxJsonApiConfig.urlBuilder config) as [| |b]; [|done|];
      rewrite guard_false, !chosen_default, !whenPresent_from_option;
      by rewrite !usableParams_key.
  - unfold NgrxJsonApi.update, NgrxJsonApi.delete, NgrxJsonApi.create,
      NgrxJsonApi.request.
    rewrite !guard_false.
    pose proof (urlBuilder_by_type_and_id_aux query) as (-> & -> & ->).
    done.
Qed.

(** X12: whatever a call of [find], [create], [update] or [delete] requests
    goes to a URL that starts with the API URL and a slash, and carries the
    two headers of the JSON API media type. *)
Theorem requests_go_below_apiUrl (query : option Query.t)
  (document : option Document.t) (r : Request.t) :
  NgrxJsonApi.find config query = Requested r ∨
  NgrxJsonApi.create config query document = Requested r ∨
  NgrxJsonApi.update config query document = Requested r ∨
  NgrxJsonApi.delete config query = Requested r →
  Request.headers r
    = [("Content-Type", "application/vnd.api+json");
       ("Accept", "application/vnd.api+json")] ∧
  ∃ rest, Request.url r = NgrxJsonApiConfig.apiUrl config +:+ "/" +:+ rest.
Proof.
  assert (NgrxJsonApi.find config query = Requested r →
          Request.headers r = NgrxJsonApi.headers ∧
          ∃ rest, Request.url r
                  = NgrxJsonApiConfig.apiUrl config +:+ "/" +:+ rest) as Hfind.
  { unfold NgrxJsonApi.find, NgrxJsonApi.request.
    destruct (NgrxJsonApiConfig.urlBuilder config); [|done|];
      rewrite guard_false; (destruct query as [query|]; [|done]);
      intros [= <-]; cbn [Request.headers Request.url]; (split; [done|]);
      destruct (urlBuilder_below_apiUrl query GET) as [path Hpath];
      change (NgrxJsonApi.urlBuilder config query GET)
        with (NgrxJsonApi.case_GET config query) in Hpath;
      rewrite Hpath; eexists; by rewrite !string_append_assoc. }
  intros [Hr|Hrest]; [by apply Hfind|]. revert Hrest. clear Hfind.
  unfold NgrxJsonApi.create, NgrxJsonApi.update,
    NgrxJsonApi.delete, NgrxJsonApi.request.
  rewrite !guard_false.
  destruct query as [query|]; [|by intros [[=]|[[=]|[=]]]].
  intros [Hr|[Hr|[= <-]]]; cbn [Request.headers Request.url].
  - destruct document as [document|]; [|discriminate Hr].
    injection Hr as <-. split; [done|]. apply (urlBuilder_below_apiUrl query POST).
  - destruct document as [document|]; [|discriminate Hr].
    injection Hr as <-. split; [done|]. apply (urlBuilder_below_apiUrl query PATCH).
  - split; [done|]. apply (urlBuilder_below_apiUrl query DELETE).
Qed.

(** X13: for a configuration whose [urlBuilder] is absent or an object, a
    query without [params], or with [params] that have no key, is requested
    with six empty parameters: the assembling generator is still called, and
    the generators of the concerns are not. *)
Theorem find_without_params (query : Query.t) :
  NgrxJsonApiConfig.urlBuilder config ≠ Js.HoldsNothing →
  Query.params query = None ∨
  Query.params query = Some (QueryParams.mk None None None None None None) →
  NgrxJsonApi.find config (Some query)
  = Requested
      (Request.mk RequestMethod.Get
         (NgrxJsonApi.urlBuilder config query GET +:+
          default generateQueryParams
            (Js.held (NgrxJsonApiConfig.urlBuilder config)
               ≫= NgrxJsonApiUrlBuilder.generateQueryParams)
            [""; ""; ""; ""; ""; ""])
         None NgrxJsonApi.headers).
Proof.
  intros Hconfig Hparams.
  assert (NgrxJsonApi.usableParams query = None) as Husable.
  { unfold NgrxJsonApi.usableParams. by destruct Hparams as [-> | ->]. }
  unfold NgrxJsonApi.find.
  destruct (NgrxJsonApiConfig.urlBuilder config) as [| |b]; [|done|];
    by rewrite guard_false, !chosen_default, Husable.
Qed.

(** X14: the [queryId] and the [queryType] of a query have no part in what
    [find], [create], [update] and [delete] request. *)
Theorem requests_ignore_queryId_and_queryType (query : Query.t)
  (document : option Document.t) (queryId queryType : option string) :
  let query' :=
    Query.mk queryId (Query.type query) (Query.id query) queryType
      (Query.params query) in
  NgrxJsonApi.find config (Some query') = NgrxJsonApi.find config (Some query) ∧
  NgrxJsonApi.create config (Some query') document
    = NgrxJsonApi.create config (Some query) document ∧
  NgrxJsonApi.update config (Some query') document
    = NgrxJsonApi.update config (Some query) document ∧
  NgrxJsonApi.delete config (Some query') = NgrxJsonApi.delete config (Some query).
Proof. by destruct query. Qed.

End MoreApiFacts.

Lemma collectionPathFor_first_definition_witness :
  NgrxJsonApi.collectionPathFor
    (NgrxJsonApiConfig.mk "http://api"
       [ResourceDefinition.mk "Person" "people";
        ResourceDefinition.mk "Article" "articles";
        ResourceDefinition.mk "Article" "posts"] Js.Missing)
    (Some "Article") = Some "articles" ∧
  NgrxJsonApi.collectionPathFor Sample.config (Some "Comment") = Some "Comment".
Proof.
  split.
  - apply (proj1 (collectionPathFor_first_definition _) "Article"
             [ResourceDefinition.mk "Person" "people"]
             (ResourceDefinition.mk "Article" "articles")
             [ResourceDefinition.mk "Article" "posts"]); [done|done|].
    by repeat constructor.
  - apply (proj1 (proj2 (collectionPathFor_first_definition Sample.config))).
    by repeat constructor.
Defined.

Lemma urlBuilder_without_type_or_id_witness :
  NgrxJsonApi.urlBuilder Sample.config
    (Query.mk None (Some "Article") (Some "") None None) GET
    = "http://api/articles" ∧
  NgrxJsonApi.urlBuilder Sample.config
    (Query.mk None None (Some "1") None None) DELETE
    = "http://api/undefined".
Proof.
  split.
  - rewrite (proj1 (urlBuilder_without_type_or_id Sample.config _ GET));
      [reflexivity|]. by right.
  - by rewrite (proj2 (urlBuilder_without_type_or_id Sample.config _ DELETE)).
Defined.

Lemma requests_go_below_apiUrl_witness :
  ∃ r,
    NgrxJsonApi.delete Sample.config (Some Sample.query22) = Requested r ∧
    Request.headers r
      = [("Content-Type", "application/vnd.api+json");
         ("Accept", "application/vnd.api+json")] ∧
    ∃ rest, Request.url r = "http://api" +:+ "/" +:+ rest.
Proof.
  eexists. split; [reflexivity|].
  apply (requests_go_below_apiUrl Sample.config (Some Sample.query22) None).
  right. right. right. reflexivity.
Defined.

Lemma find_without_params_witness :
  NgrxJsonApi.find Sample.config
    (Some (Query.mk None (Some "Article") None None
             (Some (QueryParams.mk None None None None None None))))
  = Requested
      (Request.mk RequestMethod.Get "http://api/articles?" None
         NgrxJsonApi.headers).
Proof.
  rewrite find_without_params; [reflexivity|discriminate|by right].
Defined.


Lemma entry_points_address_one_url_witness :
  NgrxJsonApiConfig.urlBuilder Sample.config ≠ Js.HoldsNothing ∧
  NgrxJsonApi.find Sample.config
    (Some (Query.mk None (Some "Article") (Some "1") None
             (Some (QueryParams.mk None None None (Some ["title"]) (Some 5%Z)
                      None))))
  = Requested
      (Request.mk RequestMethod.Get
         "http://api/articles/1?fields=title&page[limit]=5&" None
         NgrxJsonApi.headers).
Proof.
  assert (NgrxJsonApiConfig.urlBuilder Sample.config ≠ Js.HoldsNothing)
    as Hconfig by discriminate.
  split; [exact Hconfig|].
  rewrite (proj1 (entry_points_address_one_url Sample.config _
                    (Document.mk (One Sample.person9) [])) Hconfig).
  vm_compute. reflexivity.
Defined.
